(** * braze.py: a batching client over the Braze REST API

    A shallow embedding of [src/braze.py] (records [BrazeUser] and
    [BrazeEvent], the queueing client [BrazeClient]) together with the
    properties of the queue / flush engine.

    Conventions of the embedding.
    - Python values are the inductive [pyval]; a Python [dict] is an
      association list in insertion order ([d[k] = v] replaces in place,
      or appends a new key at the end).
    - Client objects live in a heap ([gmap nat BrazeClient.t]); records
      hold their back-reference as a value [VClient r]. The [requests]
      dict of a client, keyed by timestamps, is a [gmap].
    - The outside world (clock, HTTP transport, the opening of the log
      file) is a set of oracles, and every effect the code performs is
      appended to a trace.
    - The [while] loop of [flush] runs on fuel; running out of fuel is an
      outcome of its own that still carries the state reached.
    - A queue holds the value a record had when it was enqueued; none of
      the properties below is about a record changed while it is
      queued. *)

From Stdlib Require Import ZArith Ascii String DecimalString.
From stdpp Require Import base option list strings gmap.

Set Warnings "-register-all".
Local Open Scope Z_scope.

(** ** Timestamps *)

(** A naive [datetime.datetime] (no tzinfo), as [datetime.utcnow()]
    returns it. *)
Record datetime := Datetime {
  dt_year : nat; dt_month : nat; dt_day : nat;
  dt_hour : nat; dt_minute : nat; dt_second : nat;
  dt_microsecond : nat
}.

#[global] Instance datetime_eq_dec : EqDecision datetime.
Proof. solve_decision. Defined.

Definition datetime_to_tuple (d : datetime) : nat * nat * nat * nat * nat * nat * nat :=
  (dt_year d, dt_month d, dt_day d, dt_hour d, dt_minute d, dt_second d,
   dt_microsecond d).

Definition datetime_of_tuple (t : nat * nat * nat * nat * nat * nat * nat) : datetime :=
  let '(y, mo, d, h, mi, s, us) := t in Datetime y mo d h mi s us.

#[global] Instance datetime_countable : Countable datetime.
Proof.
  apply (inj_countable' datetime_to_tuple datetime_of_tuple).
  intros []; reflexivity.
Defined.

(** [pad w n]: [n] in decimal, left-padded with zeros to [w] digits
    (the [%0wd] of the C formatter behind [isoformat]). *)
Definition pad (w n : nat) : string :=
  let s := NilZero.string_of_uint (Nat.to_uint n) in
  String.concat EmptyString (replicate (w - String.length s)%nat "0") +:+ s.

(** [datetime.isoformat()] of a naive datetime:
    [YYYY-MM-DDTHH:MM:SS], followed by [.ffffff] when the microsecond
    field is not zero. *)
Definition isoformat (d : datetime) : string :=
  pad 4 (dt_year d) +:+ "-" +:+ pad 2 (dt_month d) +:+ "-" +:+ pad 2 (dt_day d)
  +:+ "T" +:+ pad 2 (dt_hour d) +:+ ":" +:+ pad 2 (dt_minute d) +:+ ":"
  +:+ pad 2 (dt_second d)
  +:+ (if Nat.eqb (dt_microsecond d) 0 then EmptyString
      else "." +:+ pad 6 (dt_microsecond d)).

(** ** Python values and dictionaries *)

Inductive pyval :=
  | VNone
  | VBool (b : bool)
  | VInt (z : Z)
  | VStr (s : string)
  | VDatetime (d : datetime)
  | VList (l : list pyval)
  | VDict (d : list (string * pyval))
  | VClient (r : nat)    (* a reference to a BrazeClient object *)
  | VObject.             (* an object of any other class *)

Abbreviation pydict := (list (string * pyval)).

Module PyDict.
Section Ordered.
Context {K V : Type} `{EqDecision K}.

(** [d.get(k)] / [k in d] *)
Fixpoint get (k : K) (d : list (K * V)) : option V :=
  match d with
  | [] => None
  | (k', v) :: d' => if decide (k' = k) then Some v else get k d'
  end.

(** [d[k] = v]: an existing key keeps its position. *)
Fixpoint set (k : K) (v : V) (d : list (K * V)) : list (K * V) :=
  match d with
  | [] => [(k, v)]
  | (k', v') :: d' =>
      if decide (k' = k) then (k, v) :: d' else (k', v') :: set k v d'
  end.

(** [d.update(other)] *)
Definition update (d other : list (K * V)) : list (K * V) :=
  fold_left (fun acc kv => set kv.1 kv.2 acc) other d.

Definition keys (d : list (K * V)) : list K := d.*1.

(** The loop [for k, v in l.items(): d[k] = f(v)]. *)
Definition store_all (f : V -> V) (l d : list (K * V)) : list (K * V) :=
  fold_left (fun d kv => set kv.1 (f kv.2) d) l d.
End Ordered.
End PyDict.

Definition is_none (v : pyval) : bool :=
  match v with VNone => true | _ => false end.

(** What [json.dumps] encodes: [None], booleans, integers, strings, and
    lists and dicts (their keys are strings here) of such values. On
    anything else (a datetime, an object) it raises [TypeError]. *)
Fixpoint json_serializable (v : pyval) : bool :=
  match v with
  | VNone | VBool _ | VInt _ | VStr _ => true
  | VList l => forallb json_serializable l
  | VDict d => forallb (fun kv => json_serializable kv.2) d
  | VDatetime _ | VClient _ | VObject => false
  end.

(** Truth value of a list or dict ([if self.user_queue], [if self.properties]). *)
Definition nonempty {A} (l : list A) : bool :=
  match l with [] => false | _ => true end.

(** Python slices [l[0:n]] and [l[n:]]: a negative bound counts from the
    end, and every bound is clamped to the list. *)
Definition slice_bound (n : Z) (len : nat) : nat :=
  if 0 <=? n then Z.to_nat n else Z.to_nat (Z.of_nat len + n).

Definition slice_to {A} (n : Z) (l : list A) : list A :=
  take (slice_bound n (length l)) l.

Definition slice_from {A} (n : Z) (l : list A) : list A :=
  drop (slice_bound n (length l)) l.

(** ** Exceptions, outcomes, effects *)

Inductive type_error :=
  | MissingRequired (names : list string)
  | MultipleValues (name : string)
  | UnexpectedKeyword (name : string)
  | TooManyPositional (given : nat)
  (* json.dumps: Object of type ... is not JSON serializable *)
  | NotJSONSerializable.

Inductive pyexc :=
  | ValueError (msg : string)
  | TypeError (why : type_error)
  | AttributeError (attr : string)
  (* requests.RequestException('API call to Braze failed with "<err>"') *)
  | RequestException (err : pyval)
  (* whatever the transport or the JSON parser raises *)
  | TransportError (what : string)
  (* what open() raises: FileNotFoundError, PermissionError, ... *)
  | OSError (what : string).

(** The result of running a piece of code from state [s]: it returns,
    it raises (the mutations made so far stay), or the loop is still
    running when the fuel is spent. *)
Inductive outcome (A S : Type) :=
  | Return (a : A) (s : S)
  | Raise (e : pyexc) (s : S)
  | OutOfFuel (s : S).
Arguments Return {A S} a s.
Arguments Raise {A S} e s.
Arguments OutOfFuel {A S} s.

Definition final_state {A S} (o : outcome A S) : S :=
  match o with Return _ s | Raise _ s | OutOfFuel s => s end.

Definition returns {A S} (o : outcome A S) : bool :=
  match o with Return _ _ => true | _ => false end.

(** What is written to the log file: literal text, or the text
    [json.dumps(v, indent=4)] of a request body or of a response. *)
Inductive log_text :=
  | LText (s : string)
  | LRequestJson (body : pydict)
  | LResponseJson (resp : pyval).

Inductive effect :=
  | EvSessionOpen                       (* requests.Session() *)
  | EvSessionClose                      (* s.close() *)
  | EvLogOpen (path : string)           (* open(self.log, 'a') *)
  | EvLogWrite (t : log_text)           (* log.write(...) *)
  | EvLogClose                          (* log.close() *)
  | EvPost (url : string) (body : pydict)   (* s.post(url=..., json=...) *)
  | EvSleep (seconds : N).              (* time.sleep(...) *)

(** What [s.post] followed by [json.loads(r.content)] gives. *)
Inductive post_result :=
  | PostRaises (e : pyexc)
  | PostResponse (ok : bool) (status_code : Z) (resp : pyval).

(** The collaborators: the clock ([utcnow n] is the value of the [n]-th
    call of [datetime.utcnow()]), the HTTP transport and the file
    system, which may answer from everything that happened before.
    [open_log history path] is what [open(path, 'a')] raises, if it
    raises. *)
Class Collaborators := {
  utcnow : nat -> datetime;
  http_post : list effect -> string -> pydict -> post_result;
  open_log : list effect -> string -> option pyexc
}.

Record World := MkWorld {
  clock : nat;            (* calls of datetime.utcnow() so far *)
  trace : list effect     (* effects so far, oldest first *)
}.

Definition emit (evs : list effect) (w : World) : World :=
  MkWorld (clock w) (trace w ++ evs).

Definition tick (w : World) : World :=
  MkWorld (S (clock w)) (trace w).

(** The bodies of the POSTs of a trace, the request bodies written to
    the log (oldest first), and the number of sessions opened. *)
Definition posts (tr : list effect) : list pydict :=
  omap (fun ev => match ev with EvPost _ body => Some body | _ => None end) tr.

Definition logged_requests (tr : list effect) : list pydict :=
  omap (fun ev => match ev with
                  | EvLogWrite (LRequestJson body) => Some body
                  | _ => None
                  end) tr.

Definition session_opens (tr : list effect) : nat :=
  length (omap (fun ev => match ev with EvSessionOpen => Some tt | _ => None end) tr).

(** ** BrazeUser *)

(** The three-way branch both [as_dict] methods apply to a value:
    [None] stays [None], a datetime becomes [v.isoformat()], anything
    else is stored as it is. *)
Definition dictionarise (v : pyval) : pyval :=
  match v with
  | VNone => VNone
  | VDatetime d => VStr (isoformat d)
  | _ => v
  end.

Module BrazeUser.
Record t := Make {
  external_id : pyval;
  update_existing_only : bool;
  traits : pydict;
  braze : pyval
}.

Definition __init__ (external_id : pyval) (update_existing_only : bool)
    (braze : pyval) (kwargs : pydict) : t :=
  Make external_id update_existing_only (PyDict.update [] kwargs) braze.

Definition set (self : t) (kwargs : pydict) : t :=
  Make (external_id self) (update_existing_only self)
       (PyDict.update (traits self) kwargs) (braze self).

(** [isoformat] of a datetime does not raise, so the [except] branch
    of the source is never entered. *)
Definition as_dict (self : t) : pydict :=
  let user_dict :=
    [("external_campaign_id", external_id self);
     ("update_existing_only", VBool (update_existing_only self))] in
  PyDict.store_all dictionarise (traits self) user_dict.
End BrazeUser.

(** ** Binding the arguments of a call *)

Module PyCall.
Record signature := Sig {
  params : list (string * option pyval);   (* name, default *)
  varargs : bool;                          (* *args *)
  varkw : bool                             (* **kwargs *)
}.

Record bound := Bound {
  named : pydict;          (* the parameters, in order *)
  star_args : list pyval;
  star_kwargs : pydict
}.

(** [f(k1=v1, ..., **kw)]: the keywords of the call; a key of [kw]
    that repeats an earlier keyword is an error at the call site. *)
Fixpoint keywords (explicit kw : pydict) : pyexc + pydict :=
  match kw with
  | [] => inr explicit
  | (k, v) :: kw' =>
      match PyDict.get k explicit with
      | Some _ => inl (TypeError (MultipleValues k))
      | None => keywords (explicit ++ [(k, v)]) kw'
      end
  end.

(** Positional arguments fill the parameters from the left. *)
Fixpoint bind_positional (ps : list (string * option pyval)) (pos : list pyval)
    : pydict * list pyval :=
  match ps, pos with
  | (name, _) :: ps', v :: pos' =>
      let '(filled, extra) := bind_positional ps' pos' in
      ((name, v) :: filled, extra)
  | _, _ => ([], pos)
  end.

(** A keyword fills the parameter of its name, or goes to [**kwargs]. *)
Fixpoint bind_keywords (sig : signature) (kw : pydict) (filled kwargs : pydict)
    : pyexc + (pydict * pydict) :=
  match kw with
  | [] => inr (filled, kwargs)
  | (k, v) :: kw' =>
      if bool_decide (k ∈ (params sig).*1) then
        match PyDict.get k filled with
        | Some _ => inl (TypeError (MultipleValues k))
        | None => bind_keywords sig kw' (filled ++ [(k, v)]) kwargs
        end
      else if varkw sig then
        bind_keywords sig kw' filled (PyDict.set k v kwargs)
      else inl (TypeError (UnexpectedKeyword k))
  end.

(** Parameters still empty take their default; one without a default
    is missing. *)
Fixpoint fill_defaults (ps : list (string * option pyval)) (filled : pydict)
    : list string * pydict :=
  match ps with
  | [] => ([], [])
  | (name, default) :: ps' =>
      let '(missing, vals) := fill_defaults ps' filled in
      match PyDict.get name filled, default with
      | Some v, _ => (missing, (name, v) :: vals)
      | None, Some v => (missing, (name, v) :: vals)
      | None, None => (name :: missing, vals)
      end
  end.

Definition bind (sig : signature) (pos : list pyval) (kw : pydict)
    : pyexc + bound :=
  let '(filled, extra) := bind_positional (params sig) pos in
  if nonempty extra && negb (varargs sig) then
    inl (TypeError (TooManyPositional (length pos)))
  else
    match bind_keywords sig kw filled [] with
    | inl e => inl e
    | inr (filled, kwargs) =>
        match fill_defaults (params sig) filled with
        | ([], vals) => inr (Bound vals extra kwargs)
        | (missing, _) => inl (TypeError (MissingRequired missing))
        end
    end.

Definition arg (name : string) (b : bound) : pyval :=
  default VNone (PyDict.get name (named b)).
End PyCall.

(** ** BrazeEvent *)

Module BrazeEvent.
Record t := Make {
  external_id : pyval;
  name : pyval;
  timestamp : pyval;
  properties : pydict;
  braze : pyval
}.

(** [def __init__(self, external_id, name, timestamp=None, braze=None, **kwargs)];
    the object under construction is the first positional argument. *)
Definition signature : PyCall.signature :=
  PyCall.Sig [("self", None); ("external_id", None); ("name", None);
              ("timestamp", Some VNone); ("braze", Some VNone)]
             false true.

Definition __init__ `{env : Collaborators} (external_id name timestamp braze : pyval)
    (kwargs : pydict) (w : World) : t * World :=
  let '(timestamp, w) :=
    if is_none timestamp then (VDatetime (utcnow (clock w)), tick w)
    else (timestamp, w) in
  (Make external_id name timestamp (PyDict.update [] kwargs) braze, w).

(** Calling the class [BrazeEvent] with positional arguments [pos] and
    keywords [kw]. *)
Definition new `{env : Collaborators} {S} (pos : list pyval) (kw : pydict)
    (s : S * World) : outcome t (S * World) :=
  match PyCall.bind signature (VObject :: pos) kw with
  | inl e => Raise e s
  | inr b =>
      let '(self, w) :=
        __init__ (PyCall.arg "external_id" b) (PyCall.arg "name" b)
                 (PyCall.arg "timestamp" b) (PyCall.arg "braze" b)
                 (PyCall.star_kwargs b) s.2 in
      Return self (s.1, w)
  end.

Definition set (self : t) (kwargs : pydict) : t :=
  Make (external_id self) (name self) (timestamp self)
       (PyDict.update (properties self) kwargs) (braze self).

Definition as_dict (self : t) : pydict :=
  let event_dict :=
    [("external_campaign_id", external_id self);
     ("name", name self);
     ("time", match timestamp self with
              | VDatetime d => VStr (isoformat d)
              | other => other
              end)] in
  if nonempty (properties self) then
    PyDict.set "properties"
      (VDict (PyDict.store_all dictionarise (properties self) []))
      event_dict
  else event_dict.
End BrazeEvent.

(** What can be handed to [BrazeClient.enqueue]. *)
Inductive pyobj :=
  | OUser (user : BrazeUser.t)
  | OEvent (event : BrazeEvent.t)
  | OValue (v : pyval).          (* an object of any other class *)

(** ** BrazeConfig and BrazeClient *)

Definition BRAZE_DEFAULT_ENDPOINT : string := "https://rest.fra-01.braze.eu".
Definition BRAZE_DEFAULT_API_KEY : string := "APIKEY".
Definition BRAZE_DEFAULT_BATCH_SIZE : Z := 75.
Definition BRAZE_DEFAULT_AUTOFLUSH : bool := true.
Definition BRAZE_DEFAULT_SEND : bool := false.
Definition BRAZE_DEFAULT_PAUSE : N := 0.
Definition BRAZE_DEFAULT_LOG : bool := true.
Definition BRAZE_DEFAULT_LOG_FILE : option string := None.

Module BrazeConfig.
(** [pause] is a duration in seconds; [time.sleep] takes no negative
    one. *)
Record t := Make {
  endpoint : string;
  api_key : string;
  batch_size : Z;
  auto_flush : bool;
  send : bool;
  pause : N;
  log : option string
}.
End BrazeConfig.

Definition dq : string := String (ascii_of_nat 34) EmptyString.
Definition nl : string := String (ascii_of_nat 10) EmptyString.
Definition dashes (n : nat) : string := String.concat EmptyString (replicate n "-").

(** [d.strftime('%Y-%m-%d_%Hh%Mm%Ss')] *)
Definition strftime_log_name (d : datetime) : string :=
  pad 4 (dt_year d) +:+ "-" +:+ pad 2 (dt_month d) +:+ "-" +:+ pad 2 (dt_day d)
  +:+ "_" +:+ pad 2 (dt_hour d) +:+ "h" +:+ pad 2 (dt_minute d) +:+ "m"
  +:+ pad 2 (dt_second d) +:+ "s".

Module BrazeClient.
Import BrazeConfig.

(** The fields [campaigns] and [canvases] are left out: enqueueing and
    flushing neither read nor write them. *)
Record t := Make {
  log : option string;
  config : BrazeConfig.t;
  requests : gmap datetime pydict;
  event_queue : list BrazeEvent.t;
  user_queue : list BrazeUser.t
}.

Definition with_requests (r : gmap datetime pydict) (self : t) : t :=
  Make (log self) (config self) r (event_queue self) (user_queue self).
Definition with_event_queue (q : list BrazeEvent.t) (self : t) : t :=
  Make (log self) (config self) (requests self) q (user_queue self).
Definition with_user_queue (q : list BrazeUser.t) (self : t) : t :=
  Make (log self) (config self) (requests self) (event_queue self) q.

Definition __init__ `{env : Collaborators} (endpoint api_key : string)
    (batch_size : Z) (auto_flush send : bool) (pause : N)
    (log : bool) (log_file : option string) (w : World) : t * World :=
  let '(log, w) :=
    if negb log && bool_decide (log_file = None) then (None, w)
    else match log_file with
         | Some f => (Some f, w)
         | None => (Some ("braze_" +:+ strftime_log_name (utcnow (clock w)) +:+ ".log"),
                    tick w)
         end in
  (Make log
        (BrazeConfig.Make endpoint api_key batch_size auto_flush send pause log)
        ∅ [] [],
   w).

Section Flush.
Context `{env : Collaborators}.

Definition track_url (self : t) : string :=
  endpoint (config self) +:+ "/users/track".

(** The loop condition of [flush]. *)
Definition pending (flush_users flush_events : bool) (self : t) : bool :=
  (flush_users && nonempty (user_queue self))
  || (flush_events && nonempty (event_queue self)).

(** Lines 538-559: the request body and the two batch sizes. *)
Definition build_request (flush_users flush_events : bool) (self : t)
    : pydict * Z * Z :=
  let request_body := [("api_key", VStr (api_key (config self)))] in
  let '(request_body, user_batch_size) :=
    if flush_users && nonempty (user_queue self) then
      let user_batch_size :=
        Z.min (Z.of_nat (length (user_queue self))) (batch_size (config self)) in
      (PyDict.set "attributes"
         (VList (map (fun user => VDict (BrazeUser.as_dict user))
                     (slice_to user_batch_size (user_queue self))))
         request_body,
       user_batch_size)
    else (request_body, 0) in
  let '(request_body, event_batch_size) :=
    if flush_events && nonempty (event_queue self) then
      let event_batch_size :=
        Z.min (Z.of_nat (length (event_queue self))) (batch_size (config self)) in
      (PyDict.set "events"
         (VList (map (fun event => VDict (BrazeEvent.as_dict event))
                     (slice_to event_batch_size (event_queue self))))
         request_body,
       event_batch_size)
    else (request_body, 0) in
  (request_body, user_batch_size, event_batch_size).

(** Lines 561-566. [open] may raise, and [json.dumps] raises on a body
    that holds a value it cannot encode; the step then ends with the
    exception and the world reached (left: the file, once opened, stays
    open). *)
Definition log_request (self : t) (request_body : pydict) (w : World)
    : pyexc * World + World :=
  match log self with
  | Some path =>
      match open_log (trace w) path with
      | Some e => inl (e, w)
      | None =>
          let w :=
            tick (emit [EvLogOpen path;
                        EvLogWrite (LText (dq +:+ "-- Request " +:+ dashes 49
                                            +:+ dq +:+ nl));
                        EvLogWrite (LText (dq +:+ "-- " +:+ isoformat (utcnow (clock w))
                                            +:+ " " +:+ dashes 30 +:+ dq
                                            +:+ nl +:+ nl))] w) in
          if json_serializable (VDict request_body)
          then inr (emit [EvLogWrite (LRequestJson request_body);
                          EvLogWrite (LText (nl +:+ nl))] w)
          else inl (TypeError NotJSONSerializable, w)
      end
  | None => inr w
  end.

(** Lines 568-571. *)
Definition record_request (flush_time : datetime) (request_body : pydict)
    (self : t) : t :=
  with_requests
    (<[flush_time := [("request", VDict request_body);
                      ("url", VStr (track_url self));
                      ("timestamp", VDatetime flush_time)]]> (requests self))
    self.

(** [resp.get('error')]: only a dict has [get]. *)
Definition resp_get (resp : pyval) (key : string) : pyexc + pyval :=
  match resp with
  | VDict d => inr (default VNone (PyDict.get key d))
  | _ => inl (AttributeError "get")
  end.

(** Lines 574-588, the body of [if self.config.send:]. *)
Definition dispatch (flush_time : datetime) (request_body : pydict)
    (st : t * World) : outcome unit (t * World) :=
  let '(self, w) := st in
  let r := http_post (trace w) (track_url self) request_body in
  let w := emit [EvPost (track_url self) request_body] w in
  match r with
  | PostRaises e => Raise e (self, w)
  | PostResponse ok status_code resp =>
      let self :=
        with_requests
          (alter (PyDict.set "response" resp) flush_time
             (alter (PyDict.set "status" (VInt status_code)) flush_time
                (alter (PyDict.set "ok" (VBool ok)) flush_time (requests self))))
          self in
      let w :=
        match log self with
        | Some _ =>
            emit [EvLogWrite (LText (dq +:+ "-- Response " +:+ dashes 48 +:+ dq
                                     +:+ nl +:+ nl));
                  EvLogWrite (LResponseJson resp);
                  EvLogWrite (LText (nl +:+ nl))] w
        | None => w
        end in
      match resp_get resp "error" with
      | inl e => Raise e (self, w)
      | inr err =>
          if send (config self) && negb (is_none err)
          then Raise (RequestException err) (self, w)
          else Return tt (self, w)
      end
  end.

(** Lines 590-603: drop the batches from the queues, close the log,
    pause. *)
Definition prune (user_batch_size event_batch_size : Z) (st : t * World)
    : t * World :=
  let '(self, w) := st in
  let self :=
    if 0 <? user_batch_size
    then with_user_queue (slice_from user_batch_size (user_queue self)) self
    else self in
  let self :=
    if 0 <? event_batch_size
    then with_event_queue (slice_from event_batch_size (event_queue self)) self
    else self in
  let w := match log self with Some _ => emit [EvLogClose] w | None => w end in
  let w :=
    if negb (N.eqb (pause (config self)) 0)
    then emit [EvSleep (pause (config self))] w else w in
  (self, w).

(** One pass through the body of the [while] loop. *)
Definition flush_iteration (flush_time : datetime)
    (flush_users flush_events : bool) (st : t * World)
    : outcome unit (t * World) :=
  let '(self, w) := st in
  let '(request_body, user_batch_size, event_batch_size) :=
    build_request flush_users flush_events self in
  match log_request self request_body w with
  | inl (e, w) => Raise e (self, w)
  | inr w =>
      let self := record_request flush_time request_body self in
      match (if send (config self)
             then dispatch flush_time request_body (self, w)
             else Return tt (self, w)) with
      | Return _ st => Return tt (prune user_batch_size event_batch_size st)
      | other => other
      end
  end.

Fixpoint flush_loop (fuel : nat) (flush_time : datetime)
    (flush_users flush_events : bool) (st : t * World)
    : outcome unit (t * World) :=
  if pending flush_users flush_events st.1 then
    match fuel with
    | O => OutOfFuel st
    | S fuel =>
        match flush_iteration flush_time flush_users flush_events st with
        | Return _ st => flush_loop fuel flush_time flush_users flush_events st
        | other => other
        end
    end
  else Return tt st.

Definition flush (fuel : nat) (flush_users flush_events : bool)
    (st : t * World) : outcome unit (t * World) :=
  let '(self, w) := st in
  let w := emit [EvSessionOpen] w in
  let flush_time := utcnow (clock w) in
  let w := tick w in
  match flush_loop fuel flush_time flush_users flush_events (self, w) with
  | Return _ (self, w) => Return tt (self, emit [EvSessionClose] w)
  | other => other
  end.

(** The test of lines 517-519. *)
Definition over_threshold (self : t) : bool :=
  auto_flush (config self)
  && ((batch_size (config self) <=? Z.of_nat (length (user_queue self)))
      || (batch_size (config self) <=? Z.of_nat (length (event_queue self)))).

(** Lines 508-515: the queue the object goes to, by its class. *)
Definition append_record (obj : pyobj) (self : t) : pyexc + t :=
  match obj with
  | OUser user => inr (with_user_queue (user_queue self ++ [user]) self)
  | OEvent event => inr (with_event_queue (event_queue self ++ [event]) self)
  | OValue _ =>
      inl (ValueError "Object passed is neither a BrazeUser nor a BrazeEvent")
  end.

Definition enqueue (fuel : nat) (obj : pyobj) (st : t * World)
    : outcome unit (t * World) :=
  let '(self, w) := st in
  match append_record obj self with
  | inl e => Raise e st
  | inr self =>
      if over_threshold self then flush fuel true true (self, w)
      else Return tt (self, w)
  end.

(** [def event(self, external_id, name, timestamp=None, *args, **kwargs)];
    the client is the first positional argument. *)
Definition event_signature : PyCall.signature :=
  PyCall.Sig [("self", None); ("external_id", None); ("name", None);
              ("timestamp", Some VNone)]
             true true.

(** The call [client.event(...)] on the client at address [self],
    with positional arguments [pos] and keywords [kw]. *)
Definition event {S} (self : nat) (pos : list pyval) (kw : pydict)
    (s : S * World) : outcome BrazeEvent.t (S * World) :=
  match PyCall.bind event_signature (VClient self :: pos) kw with
  | inl e => Raise e s
  | inr b =>
      match PyCall.keywords
              [("external_campaign_id", PyCall.arg "external_id" b);
               ("name", PyCall.arg "name" b);
               ("timestamp", PyCall.arg "timestamp" b);
               ("braze", VClient self)]
              (PyCall.star_kwargs b) with
      | inl e => Raise e s
      | inr kw => BrazeEvent.new [] kw s
      end
  end.
End Flush.
End BrazeClient.

(** ** The heap of clients and the records' own [enqueue] *)

Abbreviation heap := (gmap nat BrazeClient.t).

(** What a record's [enqueue] hands back to its caller. *)
Inductive returned :=
  | RNone                     (* falls off the end: None *)
  | RObject (e : pyexc).      (* an exception object, as a value *)

Section RecordEnqueue.
Context `{env : Collaborators}.

(** [target.enqueue(obj)]: runs [BrazeClient.enqueue] on the client the
    reference names and stores the client back; any other object has
    no such method. *)
Definition call_enqueue (fuel : nat) (target : pyval) (obj : pyobj)
    (s : heap * World) : outcome returned (heap * World) :=
  match target with
  | VClient r =>
      match s.1 !! r with
      | Some client =>
          match BrazeClient.enqueue fuel obj (client, s.2) with
          | Return _ (client, w) => Return RNone (<[r := client]> s.1, w)
          | Raise e (client, w) => Raise e (<[r := client]> s.1, w)
          | OutOfFuel (client, w) => OutOfFuel (<[r := client]> s.1, w)
          end
      | None => Raise (AttributeError "enqueue") s
      end
  | _ => Raise (AttributeError "enqueue") s
  end.

Definition BrazeUser_enqueue (fuel : nat) (self : BrazeUser.t) (braze : pyval)
    (s : heap * World) : outcome returned (heap * World) :=
  if is_none braze && is_none (BrazeUser.braze self) then
    Return (RObject (ValueError "Braze API handler neither set nor passed as parameter")) s
  else if negb (is_none braze) then call_enqueue fuel braze (OUser self) s
  else call_enqueue fuel (BrazeUser.braze self) (OUser self) s.

Definition BrazeEvent_enqueue (fuel : nat) (self : BrazeEvent.t) (braze : pyval)
    (s : heap * World) : outcome returned (heap * World) :=
  if is_none braze && is_none (BrazeEvent.braze self) then
    Return (RObject (ValueError "Braze handler neither set nor passed as parameter")) s
  else if negb (is_none braze) then call_enqueue fuel braze (OEvent self) s
  else call_enqueue fuel (BrazeEvent.braze self) (OEvent self) s.
End RecordEnqueue.

(** ** Notions used in the statements *)

(** [extends w w' ps lg n]: the world [w'] is [w] after some more
    effects, among them the POSTs [ps], the logged request bodies [lg]
    and [n] new sessions. *)
Definition extends (w w' : World) (ps lg : list pydict) (n : nat) : Prop :=
  ∃ evs, trace w' = trace w ++ evs
         ∧ posts evs = ps ∧ logged_requests evs = lg ∧ session_opens evs = n.

(** The request body and the two batch sizes of the pass that starts
    from [self]. *)
Definition request_of (flush_users flush_events : bool) (self : BrazeClient.t) : pydict :=
  (BrazeClient.build_request flush_users flush_events self).1.1.
Definition user_batch_of (flush_users flush_events : bool) (self : BrazeClient.t) : Z :=
  (BrazeClient.build_request flush_users flush_events self).1.2.
Definition event_batch_of (flush_users flush_events : bool) (self : BrazeClient.t) : Z :=
  (BrazeClient.build_request flush_users flush_events self).2.

(** The world in which the loop of a flush called in [w] starts (the
    session is open, the clock was read once), and the time the flush
    files its requests under. *)
Definition flush_start (w : World) : World := tick (emit [EvSessionOpen] w).
Definition flush_time_at `{env : Collaborators} (w : World) : datetime := utcnow (clock w).

(** What line 591-596 leave of a queue [q] after a batch of
    [min (len q) B] was taken from it (or none, [taken = false]). *)
Definition after_batch {A} (taken : bool) (B : Z) (q : list A) : list A :=
  let n := if taken && nonempty q then Z.min (Z.of_nat (length q)) B else 0 in
  if 0 <? n then slice_from n q else q.

(** The request body that carries the users [users] and no events. *)
Definition users_request (api_key : string) (users : list BrazeUser.t) : pydict :=
  [("api_key", VStr api_key);
   ("attributes", VList ((fun user => VDict (BrazeUser.as_dict user)) <$> users))].


Definition event_encodable (event : BrazeEvent.t) : bool :=
  json_serializable (VDict (BrazeEvent.as_dict event)).



(** ** Sample data *)

Definition sample_traits : pydict :=
  [("email", VStr "a@b.c");
   ("signed_up", VDatetime (Datetime 2019 3 7 14 5 9 250));
   ("nickname", VNone);
   ("visits", VInt 12)].

Definition sample_user (n : nat) : BrazeUser.t :=
  BrazeUser.Make (VStr ("user-" +:+ pad 3 n)) false
                 [("visits", VInt (Z.of_nat n))] VNone.

Definition sample_event (n : nat) : BrazeEvent.t :=
  BrazeEvent.Make (VStr ("user-" +:+ pad 3 n)) (VStr "login")
                  (VDatetime (Datetime 2024 5 17 9 0 n 0)) [] VNone.

Definition sample_users (n : nat) : list BrazeUser.t := sample_user <$> seq 0 n.
Definition sample_events (n : nat) : list BrazeEvent.t := sample_event <$> seq 0 n.

Definition sample_client (batch_size : Z) (auto_flush send : bool)
    (log : option string) (users : list BrazeUser.t) (events : list BrazeEvent.t)
    : BrazeClient.t :=
  BrazeClient.Make log
    (BrazeConfig.Make BRAZE_DEFAULT_ENDPOINT BRAZE_DEFAULT_API_KEY batch_size
                      auto_flush send 0%N log)
    ∅ events users.

Definition sample_clock (n : nat) : datetime := Datetime 2024 5 17 9 30 0 n.

Definition quiet_world : World := MkWorld 0 [].

(** A service that accepts everything. *)
Definition accepting : Collaborators :=
  {| utcnow := sample_clock;
     http_post := fun _ _ _ =>
       PostResponse true 201 (VDict [("message", VStr "success")]);
     open_log := fun _ _ => None |}.

(** A world in which no log file can be opened. *)
Definition unwritable : Collaborators :=
  {| utcnow := sample_clock;
     http_post := fun _ _ _ =>
       PostResponse true 201 (VDict [("message", VStr "success")]);
     open_log := fun _ _ => Some (OSError "No such file or directory") |}.

(** A user whose identity is a datetime: [as_dict] leaves the identity
    as it is, and [json.dumps] cannot encode it. *)
Definition dated_user : BrazeUser.t :=
  BrazeUser.Make (VDatetime (Datetime 2024 5 17 9 0 0 0)) false [] VNone.


(** A service that accepts the first request and answers every later
    one with an error field. *)
Definition failing_after_first : Collaborators :=
  {| utcnow := sample_clock;
     http_post := fun history _ _ =>
       match posts history with
       | [] => PostResponse true 201 (VDict [("message", VStr "success")])
       | _ => PostResponse false 400 (VDict [("error", VStr "rate limited")])
       end;
     open_log := fun _ _ => None |}.

(** * Properties *)

(** ** Dictionaries *)

Section PyDictFacts.
Context {K V : Type} `{EqDecision K}.
Implicit Types (d l init : list (K * V)) (k : K) (v : V) (f : V → V).

Lemma get_set k k' v d :
  PyDict.get k' (PyDict.set k v d) =
  if decide (k = k') then Some v else PyDict.get k' d.
Proof.
  induction d as [|[k0 v0] d IH]; csimpl.
  - repeat case_decide; congruence.
  - destruct (decide (k0 = k)) as [->|Hne]; csimpl.
    + repeat case_decide; congruence.
    + rewrite IH. repeat case_decide; congruence.
Qed.

Lemma get_None k d : k ∉ PyDict.keys d → PyDict.get k d = None.
Proof.
  unfold PyDict.keys. induction d as [|[k0 v0] d IH]; csimpl; [done|].
  intros Hnotin. apply not_elem_of_cons in Hnotin as [Hne Hrest].
  case_decide; [congruence | auto].
Qed.

Lemma get_Some_keys k v d : PyDict.get k d = Some v → k ∈ PyDict.keys d.
Proof.
  unfold PyDict.keys. induction d as [|[k0 v0] d IH]; csimpl; [done|].
  case_decide; subst; [left | right; auto].
Qed.

Lemma keys_set k v d :
  PyDict.keys (PyDict.set k v d) =
  if decide (k ∈ PyDict.keys d) then PyDict.keys d else PyDict.keys d ++ [k].
Proof.
  unfold PyDict.keys. induction d as [|[k0 v0] d IH]; csimpl.
  - destruct (decide (k ∈ [])) as [Hin|_]; [|done].
    by apply elem_of_nil in Hin.
  - destruct (decide (k0 = k)) as [->|Hne]; csimpl.
    + destruct (decide (k ∈ k :: d.*1)) as [_|Hnotin]; [done|].
      exfalso. apply Hnotin. left.
    + rewrite IH.
      destruct (decide (k ∈ d.*1)) as [Hin|Hnotin];
        destruct (decide (k ∈ k0 :: d.*1)) as [Hin'|Hnotin']; try done.
      * exfalso. apply Hnotin'. by right.
      * apply elem_of_cons in Hin' as [->|?]; congruence.
Qed.

Lemma NoDup_keys_set k v d :
  NoDup (PyDict.keys d) → NoDup (PyDict.keys (PyDict.set k v d)).
Proof.
  intros Hnd. rewrite keys_set. case_decide as Hin; [done|].
  apply NoDup_app. split_and!; [done | | apply NoDup_singleton].
  intros x Hx Hx'. apply list_elem_of_singleton in Hx'. by subst.
Qed.

Lemma get_store_all f l init k :
  NoDup (PyDict.keys l) →
  PyDict.get k (PyDict.store_all f l init) =
  match PyDict.get k l with
  | Some v => Some (f v)
  | None => PyDict.get k init
  end.
Proof.
  unfold PyDict.store_all, PyDict.keys.
  revert init. induction l as [|[k0 v0] l IH]; intros init Hnd; [done|].
  rewrite fmap_cons in Hnd. apply NoDup_cons in Hnd as [Hnotin Hnd].
  cbn [fold_left PyDict.get fst snd]. rewrite IH by done.
  rewrite get_set. destruct (decide (k0 = k)) as [->|Hne]; [|done].
  by rewrite (get_None k l Hnotin).
Qed.

Lemma keys_store_all_prefix f l init :
  ∃ rest, PyDict.keys (PyDict.store_all f l init) = PyDict.keys init ++ rest.
Proof.
  unfold PyDict.store_all. revert init. induction l as [|[k0 v0] l IH]; intros init; csimpl.
  - exists []. by rewrite app_nil_r.
  - destruct (IH (PyDict.set k0 (f v0) init)) as [rest ->].
    rewrite keys_set. case_decide; [by eexists|].
    rewrite <- app_assoc. by eexists.
Qed.

Lemma NoDup_keys_store_all f l init :
  NoDup (PyDict.keys init) → NoDup (PyDict.keys (PyDict.store_all f l init)).
Proof.
  unfold PyDict.store_all. revert init. induction l as [|[k0 v0] l IH]; intros init Hnd; csimpl.
  - done.
  - apply IH. by apply NoDup_keys_set.
Qed.
End PyDictFacts.

(** ** Serialization of records *)

Lemma dictionarise_cases (v : pyval) :
  dictionarise v =
  match v with
  | VNone => VNone
  | VDatetime t => VStr (isoformat t)
  | other => other
  end.
Proof. by destruct v. Qed.

Lemma user_as_dict_store_all (user : BrazeUser.t) :
  BrazeUser.as_dict user =
  PyDict.store_all dictionarise (BrazeUser.traits user)
    [("external_campaign_id", BrazeUser.external_id user);
     ("update_existing_only", VBool (BrazeUser.update_existing_only user))].
Proof. reflexivity. Qed.

Lemma user_as_dict_get (user : BrazeUser.t) (k : string) (v : pyval) :
  NoDup (PyDict.keys (BrazeUser.traits user)) →
  PyDict.get k (BrazeUser.traits user) = Some v →
  PyDict.get k (BrazeUser.as_dict user) = Some (dictionarise v).
Proof.
  intros Hnd Hget. rewrite user_as_dict_store_all.
  rewrite get_store_all by done. by rewrite Hget.
Qed.

Lemma event_as_dict_get (event : BrazeEvent.t) (k : string) (v : pyval) :
  NoDup (PyDict.keys (BrazeEvent.properties event)) →
  PyDict.get k (BrazeEvent.properties event) = Some v →
  ∃ props,
    PyDict.get "properties" (BrazeEvent.as_dict event) = Some (VDict props)
    ∧ PyDict.get k props = Some (dictionarise v).
Proof.
  intros Hnd Hget. unfold BrazeEvent.as_dict.
  destruct (BrazeEvent.properties event) as [|kv props] eqn:Hprops; [done|].
  exists (PyDict.store_all dictionarise (kv :: props) []). split; [reflexivity|].
  rewrite get_store_all by done. by rewrite Hget.
Qed.

(** C8. Serializing a record maps every value of its attribute mapping
    [d] (the traits of a user, the properties of an event): the output
    holds, under the same key, [None] for [None], the ISO form
    [isoformat t] for a timestamp [t], and the value itself otherwise.
    A user puts the values at the top level of its mapping, an event
    under the key "properties". The key is present in the output in all
    three cases, so a null is not omitted. *)
Theorem as_dict_maps_values
    (d : pydict) (k : string) (v : pyval)
    (external_id name timestamp braze : pyval) (update_existing_only : bool) :
  NoDup (PyDict.keys d) →
  PyDict.get k d = Some v →
  PyDict.get k (BrazeUser.as_dict
                  (BrazeUser.Make external_id update_existing_only d braze))
  = Some (dictionarise v)
  ∧ (∃ props,
        PyDict.get "properties"
          (BrazeEvent.as_dict (BrazeEvent.Make external_id name timestamp d braze))
        = Some (VDict props)
        ∧ PyDict.get k props = Some (dictionarise v))
  ∧ dictionarise v =
    match v with
    | VNone => VNone
    | VDatetime t => VStr (isoformat t)
    | other => other
    end.
Proof.
  intros Hnd Hget. split_and!.
  - by apply user_as_dict_get.
  - by apply event_as_dict_get.
  - apply dictionarise_cases.
Qed.

Lemma as_dict_maps_values_witness :
  PyDict.get "signed_up"
    (BrazeUser.as_dict (BrazeUser.Make (VStr "u1") false sample_traits VNone))
  = Some (VStr "2019-03-07T14:05:09.000250").
Proof.
  apply (as_dict_maps_values sample_traits "signed_up"
           (VDatetime (Datetime 2019 3 7 14 5 9 250))
           (VStr "u1") (VStr "login") VNone VNone false).
  - compute_done.
  - reflexivity.
Defined.

(** C10. A trait named like an identity field wins over it: when the
    traits of a user bind "external_campaign_id" or
    "update_existing_only" to [v], the serialized mapping holds the
    rendering of [v] under that key. The identity keys are written first
    and stay the first two keys, each key occurs once, so the value the
    identity field had is gone. *)
Theorem as_dict_trait_overwrites_identity
    (user : BrazeUser.t) (k : string) (v : pyval) :
  k ∈ ["external_campaign_id"; "update_existing_only"] →
  NoDup (PyDict.keys (BrazeUser.traits user)) →
  PyDict.get k (BrazeUser.traits user) = Some v →
  PyDict.get k (BrazeUser.as_dict user) = Some (dictionarise v)
  ∧ NoDup (PyDict.keys (BrazeUser.as_dict user))
  ∧ take 2 (PyDict.keys (BrazeUser.as_dict user))
    = ["external_campaign_id"; "update_existing_only"].
Proof.
  intros _ Hnd Hget. split_and!.
  - by apply user_as_dict_get.
  - rewrite user_as_dict_store_all. apply NoDup_keys_store_all. compute_done.
  - rewrite user_as_dict_store_all.
    destruct (keys_store_all_prefix dictionarise (BrazeUser.traits user)
                [("external_campaign_id", BrazeUser.external_id user);
                 ("update_existing_only",
                  VBool (BrazeUser.update_existing_only user))])
      as [rest ->].
    reflexivity.
Qed.

Lemma as_dict_trait_overwrites_identity_witness :
  PyDict.get "external_campaign_id"
    (BrazeUser.as_dict
       (BrazeUser.Make VNone false
          [("external_campaign_id", VStr "u-17"); ("plan", VStr "pro")] (VClient 0)))
  = Some (VStr "u-17").
Proof.
  apply (as_dict_trait_overwrites_identity
           (BrazeUser.Make VNone false
              [("external_campaign_id", VStr "u-17"); ("plan", VStr "pro")] (VClient 0))
           "external_campaign_id" (VStr "u-17")).
  - compute_done.
  - compute_done.
  - reflexivity.
Defined.

(** ** Traces *)

Lemma posts_app (tr1 tr2 : list effect) : posts (tr1 ++ tr2) = posts tr1 ++ posts tr2.
Proof. apply omap_app. Qed.

Lemma logged_requests_app (tr1 tr2 : list effect) :
  logged_requests (tr1 ++ tr2) = logged_requests tr1 ++ logged_requests tr2.
Proof. apply omap_app. Qed.

Lemma session_opens_app (tr1 tr2 : list effect) :
  session_opens (tr1 ++ tr2) = (session_opens tr1 + session_opens tr2)%nat.
Proof. unfold session_opens. by rewrite omap_app, length_app. Qed.

Lemma extends_refl (w : World) : extends w w [] [] 0.
Proof. exists []. by rewrite app_nil_r. Qed.

Lemma extends_trans (w1 w2 w3 : World) ps lg n ps' lg' n' :
  extends w1 w2 ps lg n → extends w2 w3 ps' lg' n' →
  extends w1 w3 (ps ++ ps') (lg ++ lg') (n + n').
Proof.
  intros (evs & Htr & <- & <- & <-) (evs' & Htr' & <- & <- & <-).
  exists (evs ++ evs'). rewrite Htr', Htr, <- app_assoc.
  by rewrite posts_app, logged_requests_app, session_opens_app.
Qed.

Lemma extends_emit (evs : list effect) (w : World) :
  extends w (emit evs w) (posts evs) (logged_requests evs) (session_opens evs).
Proof. by exists evs. Qed.

Lemma extends_tick (w w' : World) ps lg n :
  extends w w' ps lg n → extends w (tick w') ps lg n.
Proof. done. Qed.

Lemma extends_posts (w w' : World) ps lg n :
  extends w w' ps lg n → posts (trace w') = posts (trace w) ++ ps.
Proof. intros (evs & -> & <- & _). apply posts_app. Qed.

Lemma extends_logged (w w' : World) ps lg n :
  extends w w' ps lg n →
  logged_requests (trace w') = logged_requests (trace w) ++ lg.
Proof. intros (evs & -> & _ & <- & _). apply logged_requests_app. Qed.


(** ** One pass of the flush loop *)

Section FlushFacts.
Context `{env : Collaborators}.
Import BrazeConfig BrazeClient.
Implicit Types (self : BrazeClient.t) (w : World) (st : BrazeClient.t * World).

Lemma log_request_inr self body w w1 :
  log_request self body w = inr w1 →
  extends w w1 [] (if log self is Some _ then [body] else []) 0.
Proof.
  unfold log_request. destruct (log self) as [path|].
  - destruct (open_log (trace w) path); [done|].
    destruct (json_serializable (VDict body)); [|done]. intros [= <-].
    eexists. cbn [emit tick trace]. rewrite <- app_assoc. by split_and!.
  - intros [= <-]. apply extends_refl.
Qed.

Lemma log_request_inl self body w e w1 :
  log_request self body w = inl (e, w1) →
  extends w w1 [] [] 0 ∧ log self ≠ None.
Proof.
  unfold log_request. destruct (log self) as [path|]; [|done].
  destruct (open_log (trace w) path) as [e'|].
  - intros [= <- <-]. split; [apply extends_refl | done].
  - destruct (json_serializable (VDict body)); [done|]. intros [= <- <-].
    split; [|done]. by eexists.
Qed.

(** The log step goes through when the file opens and the body can be
    encoded. *)
Lemma log_request_ok self body w :
  (∀ path, log self = Some path → open_log (trace w) path = None) →
  (log self ≠ None → json_serializable (VDict body) = true) →
  ∃ w1, log_request self body w = inr w1.
Proof.
  intros Hopen Hjson. unfold log_request. destruct (log self) as [path|]; [|by eexists].
  rewrite (Hopen path), Hjson by done. by eexists.
Qed.

Lemma prune_spec ubs ebs self w :
  let st' := prune ubs ebs (self, w) in
  config st'.1 = config self ∧ log st'.1 = log self
  ∧ requests st'.1 = requests self
  ∧ user_queue st'.1 =
      (if 0 <? ubs then slice_from ubs (user_queue self) else user_queue self)
  ∧ event_queue st'.1 =
      (if 0 <? ebs then slice_from ebs (event_queue self) else event_queue self)
  ∧ extends w st'.2 [] [] 0.
Proof.
  unfold prune. destruct (0 <? ubs), (0 <? ebs); cbn;
    (split_and!; [done..|]);
    destruct (log self); destruct (negb _);
    first [ apply extends_refl
          | apply extends_emit
          | apply (extends_trans _ (emit [EvLogClose] w) _ [] [] 0 [] [] 0);
            apply extends_emit ].
Qed.

Lemma dispatch_spec flush_time body self w :
  let o := dispatch flush_time body (self, w) in
  config (final_state o).1 = config self
  ∧ log (final_state o).1 = log self
  ∧ user_queue (final_state o).1 = user_queue self
  ∧ event_queue (final_state o).1 = event_queue self
  ∧ dom (requests (final_state o).1) = dom (requests self)
  ∧ extends w (final_state o).2 [body] [] 0
  ∧ match o with OutOfFuel _ => False | _ => True end.
Proof.
  unfold dispatch.
  assert (Hpost : extends w (emit [EvPost (track_url self) body] w) [body] [] 0)
    by apply extends_emit.
  destruct (http_post (trace w) (track_url self) body) as [e|ok status resp]; cbn.
  { by split_and!. }
  set (w1 := emit [EvPost (track_url self) body] w) in *.
  set (w2 := match log self with Some _ => _ | None => w1 end).
  assert (Hresp : extends w w2 [body] [] 0).
  { subst w2. destruct (log self); [|done].
    apply (extends_trans _ _ _ [body] [] 0 [] [] 0 Hpost). apply extends_emit. }
  assert (Hdom : dom (alter (PyDict.set "response" resp) flush_time
                   (alter (PyDict.set "status" (VInt status)) flush_time
                      (alter (PyDict.set "ok" (VBool ok)) flush_time (requests self))))
                 = dom (requests self)).
  { by rewrite !dom_alter_L. }
  destruct (resp_get resp "error") as [e|err]; cbn; [by split_and!|].
  destruct (send (config self) && negb (is_none err)); cbn; by split_and!.
Qed.

(** A pass whose log step raises ends there, the client untouched. *)
Lemma flush_iteration_log_failed flush_time fu fe self w e w1 :
  log_request self (request_of fu fe self) w = inl (e, w1) →
  flush_iteration flush_time fu fe (self, w) = Raise e (self, w1).
Proof.
  unfold flush_iteration, request_of.
  destruct (build_request fu fe self) as [[body ubs] ebs]. cbn [fst snd].
  by intros ->.
Qed.

(** A pass whose log step goes through. *)
Lemma flush_iteration_logged flush_time fu fe self w w1 :
  log_request self (request_of fu fe self) w = inr w1 →
  let o := flush_iteration flush_time fu fe (self, w) in
  config (final_state o).1 = config self
  ∧ log (final_state o).1 = log self
  ∧ dom (requests (final_state o).1) = {[flush_time]} ∪ dom (requests self)
  ∧ extends w (final_state o).2
      (if send (config self) then [request_of fu fe self] else [])
      (if log self is Some _ then [request_of fu fe self] else []) 0
  ∧ match o with
    | Return _ st' =>
        user_queue st'.1 =
          (if 0 <? user_batch_of fu fe self
           then slice_from (user_batch_of fu fe self) (user_queue self)
           else user_queue self)
        ∧ event_queue st'.1 =
          (if 0 <? event_batch_of fu fe self
           then slice_from (event_batch_of fu fe self) (event_queue self)
           else event_queue self)
    | Raise _ st' =>
        user_queue st'.1 = user_queue self
        ∧ event_queue st'.1 = event_queue self
        ∧ send (config self) = true
    | OutOfFuel _ => False
    end.
Proof.
  unfold flush_iteration, request_of, user_batch_of, event_batch_of.
  destruct (build_request fu fe self) as [[body ubs] ebs]. cbn [fst snd].
  intros Hlogged. rewrite Hlogged.
  set (self1 := record_request flush_time body self).
  assert (Hlog := log_request_inr self body w w1 Hlogged).
  assert (Hdom1 : dom (requests self1) = {[flush_time]} ∪ dom (requests self))
    by (subst self1; cbn; apply dom_insert_L).
  change (config self1) with (config self).
  destruct (send (config self)) eqn:Hsend.
  - pose proof (dispatch_spec flush_time body self1 w1)
      as (Hcfg & Hlg & Huq & Heq & Hdom & Hext & Hout).
    pose proof (extends_trans _ _ _ _ _ _ _ _ _ Hlog Hext) as Hext1.
    rewrite app_nil_r in Hext1. cbn [app Nat.add] in Hext1.
    destruct (dispatch flush_time body (self1, w1)) as [[] [self2 w2]|e [self2 w2]|];
      cbn [final_state fst snd] in *; [| |done].
    + pose proof (prune_spec ubs ebs self2 w2)
        as (Hcfg' & Hlg' & Hreq' & Huq' & Heq' & Hext').
      cbn zeta in *. rewrite Hcfg', Hlg', Hreq', Huq', Heq', Hdom, Huq, Heq.
      split_and!; try done.
      pose proof (extends_trans _ _ _ _ _ _ _ _ _ Hext1 Hext') as H.
      by rewrite !app_nil_r, Nat.add_0_r in H.
    + rewrite Hcfg, Hlg, Hdom, Huq, Heq. by split_and!.
  - pose proof (prune_spec ubs ebs self1 w1)
      as (Hcfg' & Hlg' & Hreq' & Huq' & Heq' & Hext').
    cbn zeta in *. cbn [final_state]. rewrite Hcfg', Hlg', Hreq', Huq', Heq'.
    split_and!; try done.
    pose proof (extends_trans _ _ _ _ _ _ _ _ _ Hlog Hext') as H.
    by rewrite !app_nil_r in H.
Qed.

(** A pass, whichever way it goes: a pass raises in its log step (with
    a log) or in its dispatch (with [send]), and then it leaves the
    queues whole. *)
Lemma flush_iteration_spec flush_time fu fe self w :
  let o := flush_iteration flush_time fu fe (self, w) in
  config (final_state o).1 = config self
  ∧ log (final_state o).1 = log self
  ∧ dom (requests (final_state o).1) ⊆ {[flush_time]} ∪ dom (requests self)
  ∧ (∃ ps lg, extends w (final_state o).2 ps lg 0
              ∧ (send (config self) = false → ps = [])
              ∧ (log self = None → lg = []))
  ∧ match o with
    | Return _ st' =>
        user_queue st'.1 =
          (if 0 <? user_batch_of fu fe self
           then slice_from (user_batch_of fu fe self) (user_queue self)
           else user_queue self)
        ∧ event_queue st'.1 =
          (if 0 <? event_batch_of fu fe self
           then slice_from (event_batch_of fu fe self) (event_queue self)
           else event_queue self)
    | Raise _ st' =>
        user_queue st'.1 = user_queue self
        ∧ event_queue st'.1 = event_queue self
        ∧ (send (config self) = true ∨ log self ≠ None)
    | OutOfFuel _ => False
    end.
Proof.
  destruct (log_request self (request_of fu fe self) w) as [[e w1]|w1] eqn:Hlogged.
  - rewrite (flush_iteration_log_failed _ _ _ _ _ _ _ Hlogged).
    apply log_request_inl in Hlogged as [Hext Hlog].
    cbn [final_state fst snd].
    split; [done|]. split; [done|]. split; [apply union_subseteq_r|]. split.
    + exists [], []. by split_and!.
    + split_and!; [done|done|by right].
  - pose proof (flush_iteration_logged flush_time fu fe self w w1 Hlogged)
      as (Hcfg & Hlog & Hdom & Hext & Hout). cbn zeta in *.
    split; [done|]. split; [done|]. split; [by rewrite Hdom|]. split.
    + eexists _, _. split; [exact Hext|]. split; [by intros ->|by intros ->].
    + destruct (flush_iteration flush_time fu fe (self, w)); [done| |done].
      destruct Hout as (? & ? & ?). split_and!; [done|done|by left].
Qed.

(** ** The loop *)

Lemma flush_loop_unfold fuel flush_time fu fe st :
  flush_loop fuel flush_time fu fe st =
  if pending fu fe st.1 then
    match fuel with
    | O => OutOfFuel st
    | S fuel =>
        match flush_iteration flush_time fu fe st with
        | Return _ st => flush_loop fuel flush_time fu fe st
        | other => other
        end
    end
  else Return tt st.
Proof. by destruct fuel. Qed.

Lemma flush_loop_spec fuel flush_time fu fe self w :
  let o := flush_loop fuel flush_time fu fe (self, w) in
  config (final_state o).1 = config self
  ∧ log (final_state o).1 = log self
  ∧ dom (requests (final_state o).1) ⊆ {[flush_time]} ∪ dom (requests self)
  ∧ (∃ ps lg, extends w (final_state o).2 ps lg 0
              ∧ (send (config self) = false → ps = [])
              ∧ (log self = None → lg = []))
  ∧ match o with
    | Return _ st' => pending fu fe st'.1 = false
    | Raise _ _ => send (config self) = true ∨ log self ≠ None
    | OutOfFuel st' => pending fu fe st'.1 = true
    end.
Proof.
  revert self w. induction fuel as [|fuel IH]; intros self w;
    rewrite flush_loop_unfold; cbn [fst];
    destruct (pending fu fe self) eqn:Hpending; cbn [final_state fst snd];
    try (split_and!; [done | done | apply union_subseteq_r | | done];
         exists [], []; split_and!; [apply extends_refl | done..]).
  pose proof (flush_iteration_spec flush_time fu fe self w)
    as (Hcfg & Hlog & Hdom & (ps0 & lg0 & Hext & Hps0 & Hlg0) & Hout).
  destruct (flush_iteration flush_time fu fe (self, w))
    as [[] [self1 w1]|e [self1 w1]|]; cbn [final_state fst snd] in *; [| |done].
  - specialize (IH self1 w1)
      as (Hcfg' & Hlog' & Hdom' & (ps & lg & Hext' & Hps & Hlg) & Hout').
    cbn zeta in *. rewrite Hcfg', Hlog'.
    rewrite Hcfg in Hps, Hout'. rewrite Hlog in Hlg, Hout'.
    split; [done|]. split; [done|].
    split; [etrans; [apply Hdom'|]; apply union_least; [apply union_subseteq_l|done]|].
    split; [|done].
    eexists _, _. split_and!.
    + apply (extends_trans _ _ _ _ _ 0 _ _ 0 Hext Hext').
    + intros Hsend. by rewrite Hps0, Hps.
    + intros Hnolog. by rewrite Hlg0, Hlg.
  - split; [done|]. split; [done|]. split; [done|]. split; [|tauto].
    by exists ps0, lg0.
Qed.

(** Fuel spent without finishing is fuel well spent: the loop goes on
    from the state it had reached. *)
Lemma flush_loop_resume n m flush_time fu fe st st_k :
  flush_loop n flush_time fu fe st = OutOfFuel st_k →
  flush_loop (n + m) flush_time fu fe st = flush_loop m flush_time fu fe st_k.
Proof.
  revert st. induction n as [|n IH]; intros st; rewrite flush_loop_unfold.
  - destruct (pending fu fe st.1); [|done]. by intros [= ->].
  - destruct (pending fu fe st.1) eqn:Hpending; [|done].
    intros Hrun. rewrite (flush_loop_unfold (S n + m)), Hpending. cbn [Nat.add].
    destruct st as [self w].
    pose proof (flush_iteration_spec flush_time fu fe self w) as (_&_&_&_&Hout).
    cbn zeta in Hout.
    destruct (flush_iteration flush_time fu fe (self, w)) as [[] st1|e st1|st1];
      [by apply IH | done | done].
Qed.

Lemma flush_unfold fuel fu fe self w :
  flush fuel fu fe (self, w) =
  match flush_loop fuel (flush_time_at w) fu fe (self, flush_start w) with
  | Return _ (self', w') => Return tt (self', emit [EvSessionClose] w')
  | other => other
  end.
Proof. reflexivity. Qed.

Lemma flush_spec fuel fu fe self w :
  let o := flush fuel fu fe (self, w) in
  config (final_state o).1 = config self
  ∧ log (final_state o).1 = log self
  ∧ dom (requests (final_state o).1) ⊆ {[flush_time_at w]} ∪ dom (requests self)
  ∧ (∃ ps lg, extends w (final_state o).2 ps lg 1
              ∧ (send (config self) = false → ps = [])
              ∧ (log self = None → lg = []))
  ∧ match o with
    | Return _ st' => pending fu fe st'.1 = false
    | Raise _ _ => send (config self) = true ∨ log self ≠ None
    | OutOfFuel st' => pending fu fe st'.1 = true
    end.
Proof.
  rewrite flush_unfold.
  pose proof (flush_loop_spec fuel (flush_time_at w) fu fe self (flush_start w))
    as (Hcfg & Hlog & Hdom & (ps & lg & Hext & Hps & Hlg) & Hout).
  assert (Hopen : extends w (flush_start w) [] [] 1)
    by (apply extends_tick, (extends_emit [EvSessionOpen])).
  pose proof (extends_trans _ _ _ _ _ _ _ _ _ Hopen Hext) as Hext1.
  cbn [app Nat.add] in Hext1. cbn zeta in *.
  destruct (flush_loop fuel (flush_time_at w) fu fe (self, flush_start w))
    as [[] [self' w']|e [self' w']|[self' w']]; cbn [final_state fst snd] in *;
    (split_and!; [done | done | done | | done]).
  - exists ps, lg. split_and!; [|done..].
    pose proof (extends_trans _ _ _ _ _ _ _ _ _ Hext1
                  (extends_emit [EvSessionClose] w')) as H.
    by rewrite !app_nil_r in H.
  - by exists ps, lg.
  - by exists ps, lg.
Qed.
End FlushFacts.

(** ** Dry run *)

(** C6. With [send] false a flush dispatches nothing: whatever the
    queues, the flags and the number of passes through the loop (also
    when the loop is cut short), the effects of the call contain no
    POST. *)
Theorem flush_without_send_never_posts `{env : Collaborators}
    (fuel : nat) (flush_users flush_events : bool)
    (self : BrazeClient.t) (w : World) :
  BrazeConfig.send (BrazeClient.config self) = false →
  ∃ evs,
    trace (final_state (BrazeClient.flush fuel flush_users flush_events (self, w))).2
    = trace w ++ evs
    ∧ posts evs = [].
Proof.
  intros Hsend.
  pose proof (flush_spec fuel flush_users flush_events self w)
    as (_ & _ & _ & (ps & lg & (evs & Htrace & Hposts & _) & Hps & _) & _).
  exists evs. split; [done|]. by rewrite Hposts, Hps.
Qed.

(** ** Enqueueing *)

(** C7. [enqueue] goes by the class of its argument. An object that is
    neither a user nor an event raises [ValueError] and leaves the whole
    state (both queues included) as it was. A user is appended to the
    user queue and an event to the event queue, the other queue
    untouched; the call then returns, or runs the auto-flush on the
    state so obtained. *)
Theorem enqueue_by_variant `{env : Collaborators}
    (fuel : nat) (self : BrazeClient.t) (w : World) :
  (∀ v,
     BrazeClient.enqueue fuel (OValue v) (self, w)
     = Raise (ValueError "Object passed is neither a BrazeUser nor a BrazeEvent")
             (self, w))
  ∧ (∀ user, ∃ self',
       BrazeClient.user_queue self' = BrazeClient.user_queue self ++ [user]
       ∧ BrazeClient.event_queue self' = BrazeClient.event_queue self
       ∧ BrazeClient.enqueue fuel (OUser user) (self, w)
         = if BrazeClient.over_threshold self'
           then BrazeClient.flush fuel true true (self', w)
           else Return tt (self', w))
  ∧ (∀ event, ∃ self',
       BrazeClient.event_queue self' = BrazeClient.event_queue self ++ [event]
       ∧ BrazeClient.user_queue self' = BrazeClient.user_queue self
       ∧ BrazeClient.enqueue fuel (OEvent event) (self, w)
         = if BrazeClient.over_threshold self'
           then BrazeClient.flush fuel true true (self', w)
           else Return tt (self', w)).
Proof.
  split_and!.
  - done.
  - intros user.
    by exists (BrazeClient.with_user_queue (BrazeClient.user_queue self ++ [user]) self).
  - intros event.
    by exists (BrazeClient.with_event_queue (BrazeClient.event_queue self ++ [event]) self).
Qed.

(** ** Termination of the loop *)

Section FlushTermination.
Context `{env : Collaborators}.
Import BrazeConfig BrazeClient.
Implicit Types (self : BrazeClient.t) (w : World).

Lemma user_batch_of_eq fu fe self :
  user_batch_of fu fe self =
  if fu && nonempty (user_queue self)
  then Z.min (Z.of_nat (length (user_queue self))) (batch_size (config self))
  else 0.
Proof.
  unfold user_batch_of, build_request.
  by destruct (fu && nonempty (user_queue self)),
              (fe && nonempty (event_queue self)).
Qed.

Lemma event_batch_of_eq fu fe self :
  event_batch_of fu fe self =
  if fe && nonempty (event_queue self)
  then Z.min (Z.of_nat (length (event_queue self))) (batch_size (config self))
  else 0.
Proof.
  unfold event_batch_of, build_request.
  by destruct (fu && nonempty (user_queue self)),
              (fe && nonempty (event_queue self)).
Qed.

Lemma slice_from_pos {A} (n : Z) (l : list A) :
  0 < n → slice_from n l = drop (Z.to_nat n) l.
Proof.
  intros Hn. unfold slice_from, slice_bound.
  by destruct (Z.leb_spec 0 n); [|lia].
Qed.

Lemma slice_to_nonneg {A} (n : Z) (l : list A) :
  0 <= n → slice_to n l = take (Z.to_nat n) l.
Proof.
  intros Hn. unfold slice_to, slice_bound.
  by destruct (Z.leb_spec 0 n); [|lia].
Qed.

Lemma after_batch_pos {A} (taken : bool) (B : Z) (q : list A) :
  0 < B → after_batch taken B q = if taken then drop (Z.to_nat B) q else q.
Proof.
  intros HB. unfold after_batch. destruct taken, q as [|x q]; cbn [andb nonempty];
    try done; [by rewrite drop_nil|].
  destruct (Z.ltb_spec 0 (Z.min (Z.of_nat (length (x :: q))) B)) as [Hpos|Hneg];
    [|cbn [length] in Hneg; lia].
  rewrite slice_from_pos by done.
  destruct (Z.min_spec (Z.of_nat (length (x :: q))) B) as [[Hlt ->]|[Hge ->]];
    [|done].
  rewrite Nat2Z.id, !drop_ge; [done | lia | done].
Qed.



Lemma flush_iteration_queues flush_time fu fe self w self' w' :
  flush_iteration flush_time fu fe (self, w) = Return tt (self', w') →
  config self' = config self
  ∧ user_queue self' = after_batch fu (batch_size (config self)) (user_queue self)
  ∧ event_queue self' = after_batch fe (batch_size (config self)) (event_queue self).
Proof.
  intros Hrun.
  pose proof (flush_iteration_spec flush_time fu fe self w) as (Hcfg&_&_&_&Hout).
  cbn zeta in *. rewrite Hrun in Hcfg, Hout. cbn [final_state fst] in *.
  destruct Hout as [Huq Heq].
  rewrite user_batch_of_eq in Huq. rewrite event_batch_of_eq in Heq.
  by split_and!.
Qed.

End FlushTermination.

(** ** Auto-flush *)




Lemma flush_without_send_never_posts_witness :
  ∃ evs,
    trace (final_state
             (BrazeClient.flush (env := accepting) 5 true true
                (sample_client 2 true false (Some "braze.log")
                               (sample_users 3) (sample_events 1),
                 quiet_world))).2
    = trace quiet_world ++ evs
    ∧ posts evs = [].
Proof.
  apply (flush_without_send_never_posts (env := accepting)). reflexivity.
Defined.

(** ** Dry-run flush of the user queue *)

Section DryRun.
Context `{env : Collaborators}.
Import BrazeConfig BrazeClient.
Implicit Types (self : BrazeClient.t) (w : World).






End DryRun.




(** ** The [requests] mapping *)

(** A flush call reads the clock once and files every body under that
    one key: whatever the number of batches, it adds at most one key to
    [requests]. *)
Lemma flush_adds_one_request_key `{env : Collaborators}
    (fuel : nat) (flush_users flush_events : bool)
    (self : BrazeClient.t) (w : World) :
  dom (BrazeClient.requests
         (final_state (BrazeClient.flush fuel flush_users flush_events (self, w))).1)
  ⊆ {[utcnow (clock w)]} ∪ dom (BrazeClient.requests self).
Proof. apply (flush_spec fuel flush_users flush_events self w). Qed.

(** C2 (the code at the failing input). A client with batch size 2 and
    three users is flushed once, with [send] on and the log on. Two
    request bodies are built, logged and posted, in two passes of the
    loop; [requests] ends with one entry, under the time of the flush,
    and that entry holds the second body: the entry of the first body
    was overwritten. *)
Theorem flush_two_batches_one_request_entry :
  let client := sample_client 2 false true (Some "braze.log") (sample_users 3) [] in
  let first := users_request BRAZE_DEFAULT_API_KEY (take 2 (sample_users 3)) in
  let second := users_request BRAZE_DEFAULT_API_KEY (drop 2 (sample_users 3)) in
  let o := BrazeClient.flush (env := accepting) 2 true true (client, quiet_world) in
  returns o = true
  ∧ logged_requests (trace (final_state o).2) = [first; second]
  ∧ posts (trace (final_state o).2) = [first; second]
  ∧ map_to_list (BrazeClient.requests (final_state o).1)
    = [(sample_clock 0,
        [("request", VDict second);
         ("url", VStr (BRAZE_DEFAULT_ENDPOINT +:+ "/users/track"));
         ("timestamp", VDatetime (sample_clock 0));
         ("ok", VBool true);
         ("status", VInt 201);
         ("response", VDict [("message", VStr "success")])])].
Proof. by vm_compute. Qed.

(** ** The records' own [enqueue] *)

(** C3 (the code at the failing input). A record with no batcher stored,
    asked to enqueue itself with no batcher passed, does not raise: the
    call returns, its value is a [ValueError] object, and nothing else
    happened. *)
Theorem enqueue_without_batcher_returns_the_error `{env : Collaborators}
    (fuel : nat) (s : heap * World)
    (external_id name timestamp : pyval) (update_existing_only : bool)
    (attributes : pydict) :
  BrazeUser_enqueue fuel
    (BrazeUser.Make external_id update_existing_only attributes VNone) VNone s
  = Return (RObject (ValueError "Braze API handler neither set nor passed as parameter")) s
  ∧ BrazeEvent_enqueue fuel
      (BrazeEvent.Make external_id name timestamp attributes VNone) VNone s
    = Return (RObject (ValueError "Braze handler neither set nor passed as parameter")) s.
Proof. done. Qed.

(** With a batcher at hand the record goes to it, the one passed in the
    call before the one stored on the record. *)
Lemma record_enqueue_target `{env : Collaborators}
    (fuel : nat) (s : heap * World) (user : BrazeUser.t) (event : BrazeEvent.t)
    (braze : pyval) :
  (braze ≠ VNone →
   BrazeUser_enqueue fuel user braze s = call_enqueue fuel braze (OUser user) s
   ∧ BrazeEvent_enqueue fuel event braze s = call_enqueue fuel braze (OEvent event) s)
  ∧ (BrazeUser.braze user ≠ VNone →
     BrazeUser_enqueue fuel user VNone s
     = call_enqueue fuel (BrazeUser.braze user) (OUser user) s)
  ∧ (BrazeEvent.braze event ≠ VNone →
     BrazeEvent_enqueue fuel event VNone s
     = call_enqueue fuel (BrazeEvent.braze event) (OEvent event) s).
Proof.
  unfold BrazeUser_enqueue, BrazeEvent_enqueue. split_and!.
  - intros Hbraze. by destruct braze.
  - intros Hbraze. by destruct (BrazeUser.braze user).
  - intros Hbraze. by destruct (BrazeEvent.braze event).
Qed.

(** ** A flush that meets an API error *)

Section FlushErrors.
Context `{env : Collaborators}.
Import BrazeConfig BrazeClient.
Implicit Types (self : BrazeClient.t) (w : World).

(** The request body and the loop condition read the configuration
    and the two queues, nothing else. *)
Lemma build_request_ext fu fe self1 self2 :
  config self1 = config self2 →
  user_queue self1 = user_queue self2 →
  event_queue self1 = event_queue self2 →
  build_request fu fe self1 = build_request fu fe self2
  ∧ pending fu fe self1 = pending fu fe self2.
Proof. unfold build_request, pending. by intros -> -> ->. Qed.

Lemma flush_iteration_api_error flush_time fu fe self w w_log ok status d err :
  send (config self) = true →
  log_request self (request_of fu fe self) w = inr w_log →
  http_post (trace w_log) (track_url self) (request_of fu fe self)
  = PostResponse ok status (VDict d) →
  PyDict.get "error" d = Some err →
  err ≠ VNone →
  ∃ self' w',
    flush_iteration flush_time fu fe (self, w)
    = Raise (RequestException err) (self', w')
    ∧ config self' = config self
    ∧ log self' = log self
    ∧ user_queue self' = user_queue self
    ∧ event_queue self' = event_queue self
    ∧ posts (trace w') = posts (trace w) ++ [request_of fu fe self].
Proof.
  intros Hsend Hlogged Hpost Hget Herr.
  pose proof (flush_iteration_logged flush_time fu fe self w w_log Hlogged)
    as (Hcfg & Hlog & _ & Hext & Hout).
  cbn zeta in *. rewrite Hsend in Hext. apply extends_posts in Hext.
  assert (Hrun : ∃ st', flush_iteration flush_time fu fe (self, w)
                        = Raise (RequestException err) st').
  { unfold flush_iteration, request_of in *.
    destruct (build_request fu fe self) as [[body ubs] ebs]. cbn [fst snd] in *.
    rewrite Hlogged.
    change (config (record_request flush_time body self)) with (config self).
    rewrite Hsend. unfold dispatch.
    change (track_url (record_request flush_time body self)) with (track_url self).
    rewrite Hpost. cbn [resp_get]. rewrite Hget. cbn [default from_option id].
    match goal with
    | |- context [send (config ?c)] => change (config c) with (config self)
    end.
    rewrite Hsend. destruct err; [done|by eexists..]. }
  destruct Hrun as [[self' w'] Hrun]. rewrite Hrun in *.
  cbn [final_state fst snd] in *. destruct Hout as (Huq & Heq & _).
  by exists self', w'.
Qed.

(** With [send] on, a flush that finds something pending and gets
    through the log step of its first pass posts the body built from the
    front of the queues before anything else. *)
Lemma flush_first_post fuel fu fe self w w_log :
  send (config self) = true →
  pending fu fe self = true →
  log_request self (request_of fu fe self) (flush_start w) = inr w_log →
  ∃ rest,
    posts (trace (final_state (flush (S fuel) fu fe (self, w))).2)
    = posts (trace w) ++ request_of fu fe self :: rest.
Proof.
  intros Hsend Hpending Hlogged. rewrite flush_unfold, flush_loop_unfold. cbn [fst].
  rewrite Hpending.
  assert (Hstart : posts (trace (flush_start w)) = posts (trace w)).
  { cbn. rewrite posts_app. cbn. by rewrite app_nil_r. }
  pose proof (flush_iteration_logged (flush_time_at w) fu fe self (flush_start w)
                w_log Hlogged) as (Hcfg & _ & _ & Hext & Hout).
  cbn zeta in *. rewrite Hsend in Hext. apply extends_posts in Hext.
  rewrite Hstart in Hext.
  destruct (flush_iteration (flush_time_at w) fu fe (self, flush_start w))
    as [[] [self1 w1]|e [self1 w1]|]; cbn [final_state fst snd] in *; [| |done].
  - pose proof (flush_loop_spec fuel (flush_time_at w) fu fe self1 w1)
      as (_ & _ & _ & (ps & lg & Hext' & _) & _).
    cbn zeta in *. apply extends_posts in Hext'. rewrite Hext in Hext'.
    exists ps.
    destruct (flush_loop fuel (flush_time_at w) fu fe (self1, w1))
      as [[] [self2 w2]|e [self2 w2]|[self2 w2]]; cbn [final_state fst snd] in *.
    + cbn [trace emit]. rewrite posts_app, Hext'. cbn.
      by rewrite app_nil_r, <- app_assoc.
    + by rewrite Hext', <- app_assoc.
    + by rewrite Hext', <- app_assoc.
  - by exists [].
Qed.

(** A body that went through the log step once goes through it again
    whenever the file opens. *)
Lemma log_request_again self self' body w w_log w' :
  log_request self body w = inr w_log →
  log self' = log self →
  (∀ path, log self' = Some path → open_log (trace w') path = None) →
  ∃ w_log', log_request self' body w' = inr w_log'.
Proof.
  intros Hlogged Hlog Hopen. apply log_request_ok; [done|].
  rewrite Hlog. intros Hsome. unfold log_request in Hlogged.
  destruct (log self) as [path|]; [|done].
  destruct (open_log (trace w) path); [done|].
  by destruct (json_serializable (VDict body)).
Qed.
End FlushErrors.

(** C1. Take a flush call with [send] on whose loop has made [n] passes
    and stands at the state [(self_k, w_k)] with work left; let the next
    pass get through its log step and the service answer its request,
    [body], with a non-null error field [err]. Then the call raises the
    API error for [err] in that pass. Both queues are then what they
    were when the pass began (the two pruning steps did not run), the
    last POST made is [body], and a later flush with the same flags,
    whenever it is made, builds [body] again and, its log file opening,
    posts it before anything else. *)
Theorem flush_api_error_keeps_batch `{env : Collaborators}
    (n fuel : nat) (flush_users flush_events : bool)
    (self self_k : BrazeClient.t) (w w_k w_log : World)
    (ok : bool) (status : Z) (d : pydict) (err : pyval) :
  BrazeConfig.send (BrazeClient.config self) = true →
  BrazeClient.flush n flush_users flush_events (self, w) = OutOfFuel (self_k, w_k) →
  let body := (BrazeClient.build_request flush_users flush_events self_k).1.1 in
  BrazeClient.log_request self_k body w_k = inr w_log →
  http_post (trace w_log) (BrazeClient.track_url self_k) body
  = PostResponse ok status (VDict d) →
  PyDict.get "error" d = Some err →
  err ≠ VNone →
  ∃ self' w',
    BrazeClient.flush (S n + fuel) flush_users flush_events (self, w)
    = Raise (RequestException err) (self', w')
    ∧ BrazeClient.user_queue self' = BrazeClient.user_queue self_k
    ∧ BrazeClient.event_queue self' = BrazeClient.event_queue self_k
    ∧ posts (trace w') = posts (trace w_k) ++ [body]
    ∧ (BrazeClient.build_request flush_users flush_events self').1.1 = body
    ∧ ∀ fuel' w'',
        (∀ path, BrazeClient.log self' = Some path →
                 open_log (trace (flush_start w'')) path = None) →
        ∃ rest,
          posts (trace (final_state
                          (BrazeClient.flush (S fuel') flush_users flush_events
                                             (self', w''))).2)
          = posts (trace w'') ++ body :: rest.
Proof.
  intros Hsend Hrun body Hlogged Hpost Hget Herr.
  rewrite flush_unfold in Hrun.
  pose proof (flush_loop_spec n (flush_time_at w) flush_users flush_events self
                (flush_start w)) as (Hcfg & _ & _ & _ & Hout).
  cbn zeta in *.
  destruct (BrazeClient.flush_loop n (flush_time_at w) flush_users flush_events
              (self, flush_start w)) as [[] [s1 w1]|e st1|st1] eqn:Hloop;
    [done | done | ].
  injection Hrun as ->. cbn [final_state fst] in *.
  assert (Hsend_k : BrazeConfig.send (BrazeClient.config self_k) = true)
    by by rewrite Hcfg.
  destruct (flush_iteration_api_error (flush_time_at w) flush_users flush_events
              self_k w_k w_log ok status d err Hsend_k Hlogged Hpost Hget Herr)
    as (self' & w' & Hpass & Hcfg' & Hlog' & Huq & Heq & Hposts).
  destruct (build_request_ext flush_users flush_events self' self_k)
    as [Hbody Hpending]; [done..|].
  exists self', w'. split_and!; try done.
  - rewrite flush_unfold.
    replace (S n + fuel)%nat with (n + S fuel)%nat by lia.
    rewrite (flush_loop_resume n (S fuel) _ _ _ _ _ Hloop).
    rewrite flush_loop_unfold. cbn [fst]. by rewrite Hout, Hpass.
  - by rewrite Hbody.
  - intros fuel' w'' Hopen.
    destruct (log_request_again self_k self' body w_k w_log (flush_start w'')
                Hlogged Hlog' Hopen) as [w_log' Hlogged'].
    destruct (flush_first_post fuel' flush_users flush_events self' w'' w_log')
      as [rest Hrest]; [congruence | congruence | | ].
    + unfold request_of. by rewrite Hbody.
    + exists rest. rewrite Hrest. unfold request_of. by rewrite Hbody.
Qed.

Lemma flush_api_error_keeps_batch_witness :
  ∃ self' w',
    BrazeClient.flush (env := failing_after_first) 2 true true
      (sample_client 2 false true None (sample_users 3) [], quiet_world)
    = Raise (RequestException (VStr "rate limited")) (self', w')
    ∧ BrazeClient.user_queue self' = drop 2 (sample_users 3)
    ∧ posts (trace w')
      = [users_request BRAZE_DEFAULT_API_KEY (take 2 (sample_users 3));
         users_request BRAZE_DEFAULT_API_KEY (drop 2 (sample_users 3))].
Proof.
  pose (client := sample_client 2 false true None (sample_users 3) []).
  pose (st_k := final_state (BrazeClient.flush (env := failing_after_first)
                               1 true true (client, quiet_world))).
  destruct (flush_api_error_keeps_batch (env := failing_after_first) 1 0 true true
              client st_k.1 quiet_world st_k.2 st_k.2 false 400
              [("error", VStr "rate limited")] (VStr "rate limited"))
    as (self' & w' & Hrun & Husers & _ & Hposts & _).
  - reflexivity.
  - by vm_compute.
  - by vm_compute.
  - by vm_compute.
  - reflexivity.
  - discriminate.
  - exists self', w'. split_and!; [exact Hrun | exact Husers | exact Hposts].
Defined.

(** ** Calls *)

Section PyCallFacts.
Implicit Types (d kw filled kwargs : pydict) (k : string) (sig : PyCall.signature).

Lemma get_app k d1 d2 :
  PyDict.get k (d1 ++ d2)
  = match PyDict.get k d1 with Some v => Some v | None => PyDict.get k d2 end.
Proof.
  induction d1 as [|[k0 v0] d1 IH]; [done|]. cbn [app PyDict.get].
  by case_decide.
Qed.

Lemma keywords_inl explicit kw e :
  PyCall.keywords explicit kw = inl e → ∃ why, e = TypeError why.
Proof.
  revert explicit. induction kw as [|[k v] kw IH]; intros explicit; [done|].
  cbn [PyCall.keywords]. destruct (PyDict.get k explicit); [|by apply IH].
  intros [= <-]. by eexists.
Qed.

Lemma keywords_inr explicit kw kw' :
  PyCall.keywords explicit kw = inr kw' →
  kw' = explicit ++ kw ∧ ∀ k, k ∈ PyDict.keys kw → PyDict.get k explicit = None.
Proof.
  revert explicit. induction kw as [|[k v] kw IH]; intros explicit.
  - intros [= <-]. split; [by rewrite app_nil_r|].
    intros k Hk. by apply elem_of_nil in Hk.
  - cbn [PyCall.keywords]. destruct (PyDict.get k explicit) eqn:Hget; [done|].
    intros Hrest. apply IH in Hrest as [-> Hfresh]. split.
    + by rewrite <- app_assoc.
    + intros k' Hk'. unfold PyDict.keys in Hk'. rewrite fmap_cons in Hk'.
      apply elem_of_cons in Hk' as [->|Hk']; [done|].
      specialize (Hfresh k' Hk'). rewrite get_app in Hfresh.
      by destruct (PyDict.get k' explicit).
Qed.

Lemma bind_keywords_inl sig kw filled kwargs e :
  PyCall.bind_keywords sig kw filled kwargs = inl e → ∃ why, e = TypeError why.
Proof.
  revert filled kwargs. induction kw as [|[k v] kw IH]; intros filled kwargs; [done|].
  cbn [PyCall.bind_keywords]. case_bool_decide.
  - destruct (PyDict.get k filled); [|by apply IH]. intros [= <-]. by eexists.
  - destruct (PyCall.varkw sig); [by apply IH|]. intros [= <-]. by eexists.
Qed.

(** A keyword named like a parameter never lands in [**kwargs]. *)
Lemma bind_keywords_kwargs sig kw filled kwargs filled' kwargs' k :
  PyCall.bind_keywords sig kw filled kwargs = inr (filled', kwargs') →
  k ∈ (PyCall.params sig).*1 →
  PyDict.get k kwargs' = PyDict.get k kwargs.
Proof.
  intros Hbind Hparam. revert filled kwargs Hbind.
  induction kw as [|[k0 v0] kw IH]; intros filled kwargs.
  - by intros [= <- <-].
  - cbn [PyCall.bind_keywords]. case_bool_decide as Hk0.
    + destruct (PyDict.get k0 filled); [done|]. apply IH.
    + destruct (PyCall.varkw sig); [|done]. intros Hrest.
      rewrite (IH _ _ Hrest), get_set. case_decide; [congruence|done].
Qed.

(** Keywords that name no parameter all go to [**kwargs]. *)
Lemma bind_keywords_extra sig kw filled kwargs :
  PyCall.varkw sig = true →
  (∀ k, k ∈ PyDict.keys kw → k ∉ (PyCall.params sig).*1) →
  PyCall.bind_keywords sig kw filled kwargs
  = inr (filled, PyDict.update kwargs kw).
Proof.
  intros Hvarkw. revert kwargs. induction kw as [|[k v] kw IH]; intros kwargs Hkeys;
    [done|].
  cbn [PyCall.bind_keywords]. rewrite bool_decide_eq_false_2, Hvarkw.
  - apply IH. intros k' Hk'. apply Hkeys. unfold PyDict.keys. rewrite fmap_cons.
    by right.
  - apply Hkeys. unfold PyDict.keys. rewrite fmap_cons. by left.
Qed.

Lemma bind_inl sig pos kw e :
  PyCall.bind sig pos kw = inl e → ∃ why, e = TypeError why.
Proof.
  unfold PyCall.bind. destruct (PyCall.bind_positional _ _) as [filled extra].
  destruct (nonempty extra && negb (PyCall.varargs sig)).
  { intros [= <-]. by eexists. }
  destruct (PyCall.bind_keywords sig kw filled []) as [e'|[filled' kwargs]] eqn:Hkw.
  { intros [= <-]. by eapply bind_keywords_inl. }
  destruct (PyCall.fill_defaults _ _) as [[|name missing] vals]; [done|].
  intros [= <-]. by eexists.
Qed.

Lemma bind_inr_kwargs sig pos kw b k :
  PyCall.bind sig pos kw = inr b →
  k ∈ (PyCall.params sig).*1 →
  PyDict.get k (PyCall.star_kwargs b) = None.
Proof.
  unfold PyCall.bind. destruct (PyCall.bind_positional _ _) as [filled extra].
  destruct (nonempty extra && negb (PyCall.varargs sig)); [done|].
  destruct (PyCall.bind_keywords sig kw filled []) as [e'|[filled' kwargs]] eqn:Hkw;
    [done|].
  destruct (PyCall.fill_defaults _ _) as [[|name missing] vals]; [|done].
  intros [= <-] Hparam. cbn [PyCall.star_kwargs].
  by rewrite (bind_keywords_kwargs _ _ _ _ _ _ _ Hkw Hparam).
Qed.
End PyCallFacts.

Lemma get_in_keys {K V} `{EqDecision K} (k : K) (d : list (K * V)) :
  k ∈ PyDict.keys d → is_Some (PyDict.get k d).
Proof.
  unfold PyDict.keys. induction d as [|[k0 v0] d IH]; [by intros ?%elem_of_nil|].
  rewrite fmap_cons. cbn [PyDict.get fst]. intros Hin. case_decide; [by eexists|].
  apply elem_of_cons in Hin as [->|Hin]; [done|by apply IH].
Qed.

Lemma bind_keywords_param sig k v kw filled kwargs :
  k ∈ (PyCall.params sig).*1 →
  PyDict.get k filled = None →
  PyCall.bind_keywords sig ((k, v) :: kw) filled kwargs
  = PyCall.bind_keywords sig kw (filled ++ [(k, v)]) kwargs.
Proof.
  intros Hparam Hfree. cbn [PyCall.bind_keywords].
  by rewrite bool_decide_eq_true_2, Hfree.
Qed.

Lemma bind_keywords_other sig k v kw filled kwargs :
  k ∉ (PyCall.params sig).*1 →
  PyCall.varkw sig = true →
  PyCall.bind_keywords sig ((k, v) :: kw) filled kwargs
  = PyCall.bind_keywords sig kw filled (PyDict.set k v kwargs).
Proof.
  intros Hparam Hvarkw. cbn [PyCall.bind_keywords].
  by rewrite bool_decide_eq_false_2, Hvarkw.
Qed.

(** What the constructor makes of the keywords [BrazeClient.event]
    passes on: no parameter is called "external_campaign_id", so the
    identity goes to the properties and [external_id] is left without a
    value. *)
Lemma BrazeEvent_new_from_event `{env : Collaborators} {S}
    (external_id name timestamp braze : pyval) (extra : pydict) (s : S * World) :
  (∀ k, k ∈ PyDict.keys extra →
        k ∉ ["self"; "external_id"; "name"; "timestamp"; "braze"]) →
  BrazeEvent.new []
    ([("external_campaign_id", external_id); ("name", name);
      ("timestamp", timestamp); ("braze", braze)] ++ extra) s
  = Raise (TypeError (MissingRequired ["external_id"])) s.
Proof.
  intros Hextra. unfold BrazeEvent.new, PyCall.bind.
  cbn [PyCall.bind_positional BrazeEvent.signature PyCall.params nonempty andb app].
  rewrite bind_keywords_other by (done || compute_done).
  rewrite !bind_keywords_param by (done || compute_done).
  rewrite bind_keywords_extra by done.
  reflexivity.
Qed.

(** C9. Every call of the helper [BrazeClient.event] raises a
    [TypeError] and leaves the heap of clients (so both queues of every
    client) and the world as they were; no event is built. When the call
    itself is well formed (its own arguments bind, and no extra keyword
    repeats one the helper passes), the error is the constructor's:
    the required parameter [external_id] has no value, because the
    helper passes the identity under the name "external_campaign_id". *)
Theorem event_helper_always_raises `{env : Collaborators}
    (self : nat) (pos : list pyval) (kw : pydict) (s : heap * World) :
  ∃ why,
    BrazeClient.event self pos kw s = Raise (TypeError why) s
    ∧ ∀ b kw',
        PyCall.bind BrazeClient.event_signature (VClient self :: pos) kw = inr b →
        PyCall.keywords
          [("external_campaign_id", PyCall.arg "external_id" b);
           ("name", PyCall.arg "name" b);
           ("timestamp", PyCall.arg "timestamp" b);
           ("braze", VClient self)]
          (PyCall.star_kwargs b) = inr kw' →
        why = MissingRequired ["external_id"].
Proof.
  unfold BrazeClient.event.
  destruct (PyCall.bind BrazeClient.event_signature (VClient self :: pos) kw)
    as [e|b] eqn:Hbind.
  { apply bind_inl in Hbind as [why ->]. exists why. split; [done|]. by intros ?? [=]. }
  destruct (PyCall.keywords _ (PyCall.star_kwargs b)) as [e|kw'] eqn:Hkw.
  { pose proof Hkw as [why ->]%keywords_inl. exists why. split; [done|].
    intros b0 kw0 [= <-] Hkw0. by rewrite Hkw in Hkw0. }
  apply keywords_inr in Hkw as [-> Hfresh].
  exists (MissingRequired ["external_id"]). split; [|done].
  apply BrazeEvent_new_from_event. intros k Hk Hin.
  assert (Hsome := get_in_keys k _ Hk).
  assert (Hown : ∀ name, name ∈ ["self"; "external_id"; "name"; "timestamp"] →
                         PyDict.get name (PyCall.star_kwargs b) = None).
  { intros name Hname. apply (bind_inr_kwargs _ _ _ _ _ Hbind). revert Hname.
    cbn. rewrite !elem_of_cons. tauto. }
  rewrite !elem_of_cons, elem_of_nil in Hin.
  destruct Hin as [->|[->|[->|[->|[->|[]]]]]].
  - rewrite Hown in Hsome; [by destruct Hsome | rewrite !elem_of_cons; tauto].
  - rewrite Hown in Hsome; [by destruct Hsome | rewrite !elem_of_cons; tauto].
  - rewrite Hown in Hsome; [by destruct Hsome | rewrite !elem_of_cons; tauto].
  - rewrite Hown in Hsome; [by destruct Hsome | rewrite !elem_of_cons; tauto].
  - specialize (Hfresh "braze" Hk). by vm_compute in Hfresh.
Qed.

(** The call [client.event('user-007', 'login', plan='pro')]. *)
Example event_helper_call :
  BrazeClient.event (env := accepting) 0 [VStr "user-007"; VStr "login"]
                    [("plan", VStr "pro")] ((∅ : heap), quiet_world)
  = Raise (TypeError (MissingRequired ["external_id"])) (∅, quiet_world).
Proof. reflexivity. Qed.

(** The constructor itself works when called with its own parameter
    names. *)
Example event_constructor_call :
  returns (BrazeEvent.new (env := accepting) [VStr "user-007"; VStr "login"]
                          [("plan", VStr "pro")] ((∅ : heap), quiet_world))
  = true.
Proof. reflexivity. Qed.

(** * More of the code *)

(** ** Calls in sequence *)

(** [for obj in objs: client.enqueue(obj)], stopping at the first call
    that does not return. *)
Fixpoint enqueue_all `{env : Collaborators} (fuel : nat) (objs : list pyobj)
    (st : BrazeClient.t * World) : outcome unit (BrazeClient.t * World) :=
  match objs with
  | [] => Return tt st
  | obj :: objs =>
      match BrazeClient.enqueue fuel obj st with
      | Return _ st => enqueue_all fuel objs st
      | other => other
      end
  end.

(** The users and the events among some objects, in order. *)
Definition users_among (objs : list pyobj) : list BrazeUser.t :=
  omap (fun obj => match obj with OUser user => Some user | _ => None end) objs.

Definition events_among (objs : list pyobj) : list BrazeEvent.t :=
  omap (fun obj => match obj with OEvent event => Some event | _ => None end) objs.

Definition is_record (obj : pyobj) : bool :=
  match obj with OValue _ => false | _ => true end.

(** * More properties *)

(** ** A rule for the loop of [flush] *)

Section FlushLoopRule.
Context `{env : Collaborators}.
Import BrazeConfig BrazeClient.
Implicit Types (self : BrazeClient.t) (w : World).

(** An invariant [I] kept by every pass that returns holds when the loop
    ends or is cut short; what a raising pass establishes, [R], holds
    when the loop raises. *)
Lemma flush_loop_invariant
    (I : BrazeClient.t → World → Prop) (R : pyexc → BrazeClient.t → World → Prop)
    fuel flush_time fu fe self w :
  I self w →
  (∀ self w, I self w → pending fu fe self = true →
     match flush_iteration flush_time fu fe (self, w) with
     | Return _ st' => I st'.1 st'.2
     | Raise e st' => R e st'.1 st'.2
     | OutOfFuel _ => True
     end) →
  match flush_loop fuel flush_time fu fe (self, w) with
  | Return _ st' => I st'.1 st'.2 ∧ pending fu fe st'.1 = false
  | Raise e st' => R e st'.1 st'.2
  | OutOfFuel st' => I st'.1 st'.2 ∧ pending fu fe st'.1 = true
  end.
Proof.
  intros Hinit Hstep. revert self w Hinit.
  induction fuel as [|fuel IH]; intros self w Hinit;
    rewrite flush_loop_unfold; cbn [fst];
    destruct (pending fu fe self) eqn:Hpending; try done.
  specialize (Hstep self w Hinit Hpending).
  pose proof (flush_iteration_spec flush_time fu fe self w) as (_&_&_&_&Hout).
  cbn zeta in Hout.
  destruct (flush_iteration flush_time fu fe (self, w)) as [[] [self' w']|e st'|];
    [by apply IH | done | done].
Qed.

(** The client a flush ends with is the client its loop ends with. *)
Lemma flush_final_client fuel fu fe self w :
  (final_state (flush fuel fu fe (self, w))).1
  = (final_state (flush_loop fuel (flush_time_at w) fu fe (self, flush_start w))).1
  ∧ returns (flush fuel fu fe (self, w))
    = returns (flush_loop fuel (flush_time_at w) fu fe (self, flush_start w)).
Proof.
  rewrite flush_unfold.
  by destruct (flush_loop fuel (flush_time_at w) fu fe (self, flush_start w))
    as [[] []|e []|[]].
Qed.
End FlushLoopRule.

(** ** What a flush does to the queues *)

Section FlushQueues.
Context `{env : Collaborators}.
Import BrazeConfig BrazeClient.
Implicit Types (self : BrazeClient.t) (w : World).

Lemma after_batch_drop {A} (taken : bool) (B : Z) (q : list A) :
  ∃ k, after_batch taken B q = drop k q ∧ (taken = false → k = 0%nat).
Proof.
  unfold after_batch. destruct taken; cbn [andb].
  - destruct (0 <? _); [by eexists | by exists 0%nat].
  - by exists 0%nat.
Qed.


(** Every pass leaves the configuration alone and, raising or not,
    leaves of each queue what [after_batch] says or all of it. *)
Lemma flush_iteration_outcome flush_time fu fe self w :
  match flush_iteration flush_time fu fe (self, w) with
  | Return _ st' =>
      config st'.1 = config self
      ∧ user_queue st'.1 = after_batch fu (batch_size (config self)) (user_queue self)
      ∧ event_queue st'.1
        = after_batch fe (batch_size (config self)) (event_queue self)
  | Raise _ st' =>
      config st'.1 = config self
      ∧ user_queue st'.1 = user_queue self
      ∧ event_queue st'.1 = event_queue self
      ∧ (send (config self) = true ∨ log self ≠ None)
  | OutOfFuel _ => False
  end.
Proof.
  pose proof (flush_iteration_spec flush_time fu fe self w) as (Hcfg&_&_&_&Hout).
  cbn zeta in *.
  destruct (flush_iteration flush_time fu fe (self, w))
    as [[] [self' w']|e [self' w']|] eqn:Hrun; cbn [final_state fst snd] in *.
  - by apply flush_iteration_queues in Hrun.
  - by destruct Hout as (?&?&?).
  - done.
Qed.
End FlushQueues.

(** X1. A flush that finds nothing to do (each queue is empty or not
    asked for) is a no-op on the client, for any fuel: it returns at
    once, the client is unchanged ([requests] included), and the only
    effects are the session opened and closed and one reading of the
    clock: nothing is logged, posted or slept. *)
Theorem flush_nothing_pending `{env : Collaborators}
    (fuel : nat) (flush_users flush_events : bool)
    (self : BrazeClient.t) (w : World) :
  flush_users = false ∨ BrazeClient.user_queue self = [] →
  flush_events = false ∨ BrazeClient.event_queue self = [] →
  BrazeClient.flush fuel flush_users flush_events (self, w)
  = Return tt (self, MkWorld (S (clock w))
                            (trace w ++ [EvSessionOpen; EvSessionClose])).
Proof.
  intros Husers Hevents. rewrite flush_unfold, flush_loop_unfold. cbn [fst].
  assert (BrazeClient.pending flush_users flush_events self = false) as ->.
  { unfold BrazeClient.pending.
    destruct Husers as [->| ->], Hevents as [->| ->]; cbn;
      by rewrite ?andb_false_r. }
  unfold emit, flush_start, tick, emit. cbn [trace clock].
  by rewrite <- app_assoc.
Qed.

Lemma flush_nothing_pending_witness :
  BrazeClient.flush (env := accepting) 0 true true
    (sample_client 75 true true (Some "braze.log") [] [], quiet_world)
  = Return tt (sample_client 75 true true (Some "braze.log") [] [],
               MkWorld 1 [EvSessionOpen; EvSessionClose]).
Proof.
  apply (flush_nothing_pending (env := accepting) 0 true true
           (sample_client 75 true true (Some "braze.log") [] []) quiet_world).
  - by right.
  - by right.
Defined.

(** X2. With [auto_flush] off, enqueueing any sequence of users and
    events only appends: every record is added to the end of its queue,
    in the order of the calls (a record enqueued twice is queued twice),
    whatever the batch size, and nothing else happens. *)
Theorem enqueue_all_without_auto_flush `{env : Collaborators}
    (fuel : nat) (objs : list pyobj) (self : BrazeClient.t) (w : World) :
  BrazeConfig.auto_flush (BrazeClient.config self) = false →
  Forall (fun obj => is_record obj = true) objs →
  enqueue_all fuel objs (self, w)
  = Return tt
      (BrazeClient.Make (BrazeClient.log self) (BrazeClient.config self)
         (BrazeClient.requests self)
         (BrazeClient.event_queue self ++ events_among objs)
         (BrazeClient.user_queue self ++ users_among objs),
       w).
Proof.
  intros Hauto Hrecords. revert self Hauto.
  induction Hrecords as [|obj objs Hobj _ IH]; intros self Hauto.
  - cbn. rewrite !app_nil_r. by destruct self.
  - cbn [enqueue_all]. unfold BrazeClient.enqueue.
    destruct obj as [user|event|v]; [| |done]; cbn [BrazeClient.append_record].
    + unfold BrazeClient.over_threshold. cbn [BrazeClient.config
        BrazeClient.with_user_queue]. rewrite Hauto. cbn [andb].
      rewrite IH by done. cbn. by rewrite <- !app_assoc.
    + unfold BrazeClient.over_threshold. cbn [BrazeClient.config
        BrazeClient.with_event_queue]. rewrite Hauto. cbn [andb].
      rewrite IH by done. cbn. by rewrite <- !app_assoc.
Qed.

Lemma enqueue_all_without_auto_flush_witness :
  let o := enqueue_all (env := accepting) 0
             [OUser (sample_user 0); OEvent (sample_event 0); OUser (sample_user 0)]
             (sample_client 1 false true None [] [], quiet_world) in
  returns o = true
  ∧ BrazeClient.user_queue (final_state o).1 = [sample_user 0; sample_user 0]
  ∧ BrazeClient.event_queue (final_state o).1 = [sample_event 0]
  ∧ (final_state o).2 = quiet_world.
Proof.
  cbn zeta.
  rewrite (enqueue_all_without_auto_flush (env := accepting) 0
             [OUser (sample_user 0); OEvent (sample_event 0); OUser (sample_user 0)]
             (sample_client 1 false true None [] []) quiet_world).
  - by split_and!.
  - reflexivity.
  - by repeat constructor.
Defined.

(** X3. Whatever its outcome (return, exception, or still running), a
    flush only ever removes records from the front of a queue: what is
    left of each queue is a tail of what was there, order kept, nothing
    added. A queue whose flag is false is left exactly as it was, and
    the configuration never changes. *)
Theorem flush_removes_from_the_front `{env : Collaborators}
    (fuel : nat) (flush_users flush_events : bool)
    (self : BrazeClient.t) (w : World) :
  let self' :=
    (final_state (BrazeClient.flush fuel flush_users flush_events (self, w))).1 in
  BrazeClient.config self' = BrazeClient.config self
  ∧ ∃ n m,
      BrazeClient.user_queue self' = drop n (BrazeClient.user_queue self)
      ∧ BrazeClient.event_queue self' = drop m (BrazeClient.event_queue self)
      ∧ (flush_users = false → n = 0%nat)
      ∧ (flush_events = false → m = 0%nat).
Proof.
  cbn zeta. destruct (flush_final_client fuel flush_users flush_events self w)
    as [-> _].
  set (I := fun (self' : BrazeClient.t) (_ : World) =>
    BrazeClient.config self' = BrazeClient.config self
    ∧ ∃ n m,
        BrazeClient.user_queue self' = drop n (BrazeClient.user_queue self)
        ∧ BrazeClient.event_queue self' = drop m (BrazeClient.event_queue self)
        ∧ (flush_users = false → n = 0%nat)
        ∧ (flush_events = false → m = 0%nat)).
  pose proof (flush_loop_invariant I (fun _ => I) fuel (flush_time_at w)
                flush_users flush_events self (flush_start w)) as Hloop.
  assert (Hinit : I self (flush_start w)).
  { split; [done|]. exists 0%nat, 0%nat. by rewrite !drop_0. }
  assert (Hstep : ∀ self1 w1, I self1 w1 →
            BrazeClient.pending flush_users flush_events self1 = true →
            match BrazeClient.flush_iteration (flush_time_at w) flush_users
                    flush_events (self1, w1) with
            | Return _ st' => I st'.1 st'.2
            | Raise e st' => I st'.1 st'.2
            | OutOfFuel _ => True
            end).
  { intros self1 w1 (Hcfg & n & m & Huq & Heq & Hn & Hm) _.
    pose proof (flush_iteration_outcome (flush_time_at w) flush_users
                  flush_events self1 w1) as Hout.
    destruct (BrazeClient.flush_iteration (flush_time_at w) flush_users
                flush_events (self1, w1)) as [[] st1|e1 st1|]; [| |done].
    - destruct Hout as (Hcfg1 & Huq1 & Heq1).
      destruct (after_batch_drop flush_users
                  (BrazeConfig.batch_size (BrazeClient.config self1))
                  (BrazeClient.user_queue self1)) as (k & Hk & Hk0).
      destruct (after_batch_drop flush_events
                  (BrazeConfig.batch_size (BrazeClient.config self1))
                  (BrazeClient.event_queue self1)) as (l & Hl & Hl0).
      split; [congruence|]. exists (n + k)%nat, (m + l)%nat.
      rewrite Huq1, Hk, Huq, Heq1, Hl, Heq, !drop_drop.
      split_and!; try done; intros Hflag.
      + by rewrite (Hn Hflag), (Hk0 Hflag).
      + by rewrite (Hm Hflag), (Hl0 Hflag).
    - destruct Hout as (Hcfg1 & Huq1 & Heq1 & _).
      split; [congruence|]. exists n, m.
      split_and!; [congruence | congruence | done | done]. }
  specialize (Hloop Hinit Hstep).
  destruct (BrazeClient.flush_loop fuel (flush_time_at w) flush_users flush_events
              (self, flush_start w)) as [[] st'|e st'|st'];
    cbn [final_state]; [apply Hloop | apply Hloop | apply Hloop].
Qed.



(** ** A rule for [flush] in terms of the requests it makes *)

Section FlushPassRule.
Context `{env : Collaborators}.
Import BrazeConfig BrazeClient.
Implicit Types (self : BrazeClient.t) (w : World) (ps lg : list pydict).

(** [I self ps lg] relates the client to the bodies posted ([ps]) and
    logged ([lg]) since the call began. Each pass builds the body
    [request_of]. Its log step may raise (with a log): nothing was
    posted or logged then and the client is as it was. Otherwise the
    pass logs the body when the log is on, posts it when [send] is on,
    and then either returns with the batches dropped or raises with the
    queues as they were. *)
Lemma flush_pass_rule
    (I R : BrazeClient.t → list pydict → list pydict → Prop)
    fuel fu fe self w :
  I self [] [] →
  (∀ self1 ps lg,
     I self1 ps lg → pending fu fe self1 = true →
     let body := request_of fu fe self1 in
     let ps' := ps ++ (if send (config self1) then [body] else []) in
     let lg' := lg ++ (if log self1 is Some _ then [body] else []) in
     (∀ self2,
        config self2 = config self1 → log self2 = log self1 →
        user_queue self2
        = after_batch fu (batch_size (config self1)) (user_queue self1) →
        event_queue self2
        = after_batch fe (batch_size (config self1)) (event_queue self1) →
        I self2 ps' lg')
     ∧ (∀ self2,
          config self2 = config self1 → log self2 = log self1 →
          user_queue self2 = user_queue self1 →
          event_queue self2 = event_queue self1 →
          send (config self1) = true →
          R self2 ps' lg')
     ∧ (log self1 ≠ None → R self1 ps lg)) →
  let o := flush fuel fu fe (self, w) in
  ∃ ps lg,
    posts (trace (final_state o).2) = posts (trace w) ++ ps
    ∧ logged_requests (trace (final_state o).2) = logged_requests (trace w) ++ lg
    ∧ match o with
      | Return _ st' => I st'.1 ps lg ∧ pending fu fe st'.1 = false
      | Raise _ st' => R st'.1 ps lg
      | OutOfFuel st' => I st'.1 ps lg ∧ pending fu fe st'.1 = true
      end.
Proof.
  intros Hinit Hstep. cbn zeta. rewrite flush_unfold.
  set (w0 := flush_start w).
  assert (Hp0 : posts (trace w0) = posts (trace w)).
  { subst w0. cbn. rewrite posts_app. cbn. by rewrite app_nil_r. }
  assert (Hl0 : logged_requests (trace w0) = logged_requests (trace w)).
  { subst w0. cbn. rewrite logged_requests_app. cbn. by rewrite app_nil_r. }
  set (lift := fun (P : BrazeClient.t → list pydict → list pydict → Prop)
                   (self' : BrazeClient.t) (w' : World) =>
    ∃ ps lg, posts (trace w') = posts (trace w) ++ ps
             ∧ logged_requests (trace w') = logged_requests (trace w) ++ lg
             ∧ P self' ps lg).
  pose proof (flush_loop_invariant (lift I) (fun _ => lift R) fuel (flush_time_at w)
                fu fe self w0) as Hloop.
  assert (Hinit' : lift I self w0).
  { exists [], []. by rewrite !app_nil_r. }
  assert (Hstep' : ∀ self1 w1, lift I self1 w1 → pending fu fe self1 = true →
            match flush_iteration (flush_time_at w) fu fe (self1, w1) with
            | Return _ st' => lift I st'.1 st'.2
            | Raise e st' => lift R st'.1 st'.2
            | OutOfFuel _ => True
            end).
  { intros self1 w1 (ps & lg & Hps & Hlg & HI) Hpending.
    destruct (Hstep self1 ps lg HI Hpending) as (Hret & Hraise & Hfailed).
    destruct (log_request self1 (request_of fu fe self1) w1)
      as [[e w_log]|w_log] eqn:Hlogged.
    { rewrite (flush_iteration_log_failed _ _ _ _ _ _ _ Hlogged).
      apply log_request_inl in Hlogged as [Hext Hsome]. cbn [fst snd].
      exists ps, lg. split_and!; [| |by apply Hfailed].
      - apply extends_posts in Hext. by rewrite Hext, app_nil_r.
      - apply extends_logged in Hext. by rewrite Hext, app_nil_r. }
    pose proof (flush_iteration_logged (flush_time_at w) fu fe self1 w1 w_log Hlogged)
      as (Hcfg & Hlog & _ & Hext & Hsent).
    pose proof (flush_iteration_outcome (flush_time_at w) fu fe self1 w1) as Hout.
    cbn zeta in *.
    pose proof (extends_posts _ _ _ _ _ Hext) as Hps'.
    pose proof (extends_logged _ _ _ _ _ Hext) as Hlg'.
    destruct (flush_iteration (flush_time_at w) fu fe (self1, w1))
      as [[] [self2 w2]|e [self2 w2]|]; cbn [final_state fst snd] in *; [| |done].
    - destruct Hout as (_ & Huq & Heq).
      eexists _, _. split_and!; [| |by apply Hret].
      + by rewrite Hps', Hps, <- app_assoc.
      + by rewrite Hlg', Hlg, <- app_assoc.
    - destruct Hout as (_ & Huq & Heq & _). destruct Hsent as (_ & _ & Hsend).
      eexists _, _. split_and!; [| |by apply Hraise].
      + by rewrite Hps', Hps, <- app_assoc.
      + by rewrite Hlg', Hlg, <- app_assoc. }
  specialize (Hloop Hinit' Hstep').
  destruct (flush_loop fuel (flush_time_at w) fu fe (self, w0))
    as [[] [self' w']|e [self' w']|[self' w']]; cbn [final_state fst snd] in *.
  - destruct Hloop as [(ps & lg & Hps & Hlg & HI) Hdone].
    exists ps, lg. split_and!; [| |done..].
    + cbn. rewrite posts_app, Hps. cbn. by rewrite app_nil_r.
    + cbn. rewrite logged_requests_app, Hlg. cbn. by rewrite app_nil_r.
  - destruct Hloop as (ps & lg & Hps & Hlg & HR). by exists ps, lg.
  - destruct Hloop as [(ps & lg & Hps & Hlg & HI) Hgo]. by exists ps, lg.
Qed.
End FlushPassRule.

(** ** The contents of the requests *)

(** The "attributes" and the "events" a request body carries (none when
    the key is absent), and the serialized form of a queue. *)
Definition attributes_of (body : pydict) : list pyval :=
  match PyDict.get "attributes" body with Some (VList l) => l | _ => [] end.

Definition events_of (body : pydict) : list pyval :=
  match PyDict.get "events" body with Some (VList l) => l | _ => [] end.

Definition serialized_users (users : list BrazeUser.t) : list pyval :=
  (fun user => VDict (BrazeUser.as_dict user)) <$> users.

Definition serialized_events (events : list BrazeEvent.t) : list pyval :=
  (fun event => VDict (BrazeEvent.as_dict event)) <$> events.

Section RequestContents.
Import BrazeConfig BrazeClient.
Implicit Types (self : BrazeClient.t).

Lemma attributes_of_request fu fe self :
  attributes_of (request_of fu fe self)
  = if fu && nonempty (user_queue self)
    then serialized_users
           (slice_to (Z.min (Z.of_nat (length (user_queue self)))
                            (batch_size (config self)))
                     (user_queue self))
    else [].
Proof.
  unfold attributes_of, request_of, build_request.
  destruct (fu && nonempty (user_queue self)),
           (fe && nonempty (event_queue self)); cbn [fst snd];
    rewrite ?get_set; repeat case_decide; try done.
Qed.

Lemma events_of_request fu fe self :
  events_of (request_of fu fe self)
  = if fe && nonempty (event_queue self)
    then serialized_events
           (slice_to (Z.min (Z.of_nat (length (event_queue self)))
                            (batch_size (config self)))
                     (event_queue self))
    else [].
Proof.
  unfold events_of, request_of, build_request.
  destruct (fu && nonempty (user_queue self)),
           (fe && nonempty (event_queue self)); cbn [fst snd];
    rewrite ?get_set; repeat case_decide; try done.
Qed.

Lemma slice_to_min_pos {A} (B : Z) (q : list A) :
  0 <= B → slice_to (Z.min (Z.of_nat (length q)) B) q = take (Z.to_nat B) q.
Proof.
  intros HB. rewrite slice_to_nonneg by lia.
  destruct (Z.min_spec (Z.of_nat (length q)) B) as [[Hlt ->]|[Hge ->]]; [|done].
  rewrite Nat2Z.id, firstn_all, take_ge; [done | lia].
Qed.

Lemma attributes_of_request_pos fu fe self :
  0 <= batch_size (config self) →
  attributes_of (request_of fu fe self)
  = if fu then serialized_users
                 (take (Z.to_nat (batch_size (config self))) (user_queue self))
    else [].
Proof.
  intros HB. rewrite attributes_of_request. destruct fu; [|done]. cbn [andb].
  destruct (user_queue self) as [|user q] eqn:Hq; [by rewrite take_nil|].
  cbn [nonempty]. by rewrite slice_to_min_pos.
Qed.

Lemma events_of_request_pos fu fe self :
  0 <= batch_size (config self) →
  events_of (request_of fu fe self)
  = if fe then serialized_events
                 (take (Z.to_nat (batch_size (config self))) (event_queue self))
    else [].
Proof.
  intros HB. rewrite events_of_request. destruct fe; [|done]. cbn [andb].
  destruct (event_queue self) as [|event q] eqn:Hq; [by rewrite take_nil|].
  cbn [nonempty]. by rewrite slice_to_min_pos.
Qed.
End RequestContents.

(** [within B body]: the body carries at most [B] users and at most [B]
    events. *)
Definition within (B : Z) (body : pydict) : Prop :=
  Z.of_nat (length (attributes_of body)) <= B
  ∧ Z.of_nat (length (events_of body)) <= B.

(** X5. With a batch size that is not negative, no request body a flush
    posts or logs carries more than [batch_size] users or more than
    [batch_size] events (the API takes at most 75 of each in one call),
    whatever the outcome of the flush. *)
Theorem flush_requests_within_batch_size `{env : Collaborators}
    (fuel : nat) (flush_users flush_events : bool)
    (self : BrazeClient.t) (w : World) :
  0 <= BrazeConfig.batch_size (BrazeClient.config self) →
  let o := BrazeClient.flush fuel flush_users flush_events (self, w) in
  let B := BrazeConfig.batch_size (BrazeClient.config self) in
  ∃ ps lg,
    posts (trace (final_state o).2) = posts (trace w) ++ ps
    ∧ logged_requests (trace (final_state o).2) = logged_requests (trace w) ++ lg
    ∧ Forall (within B) ps
    ∧ Forall (within B) lg.
Proof.
  intros HB o B.
  set (I := fun (self1 : BrazeClient.t) (ps lg : list pydict) =>
    BrazeClient.config self1 = BrazeClient.config self
    ∧ Forall (within B) ps ∧ Forall (within B) lg).
  destruct (flush_pass_rule I I fuel flush_users flush_events self w)
    as (ps & lg & Hps & Hlg & Hout).
  { by split_and!. }
  { intros self1 ps lg (Hcfg & Hwps & Hwlg) _.
    assert (Hbody : within B (request_of flush_users flush_events self1)).
    { unfold within. rewrite attributes_of_request_pos, events_of_request_pos
        by (rewrite Hcfg; done).
      rewrite Hcfg. fold B.
      destruct flush_users, flush_events; unfold serialized_users, serialized_events;
        rewrite ?length_fmap, ?length_take; cbn [length]; lia. }
    assert (Hps' : Forall (within B)
              (ps ++ (if BrazeConfig.send (BrazeClient.config self1)
                      then [request_of flush_users flush_events self1] else []))).
    { apply Forall_app. split; [done|]. destruct (BrazeConfig.send _); by constructor. }
    assert (Hlg' : Forall (within B)
              (lg ++ (if BrazeClient.log self1 is Some _
                      then [request_of flush_users flush_events self1] else []))).
    { apply Forall_app. split; [done|]. destruct (BrazeClient.log _); by constructor. }
    split; [|split]; [intros self2 Hcfg2 **..|intros _];
      (split_and!; [congruence | done | done]). }
  exists ps, lg. split_and!; [done | done | |].
  - subst o. destruct (BrazeClient.flush _ _ _ _) as [[] st'|e st'|st'];
      [apply Hout..].
  - subst o. destruct (BrazeClient.flush _ _ _ _) as [[] st'|e st'|st'];
      [apply Hout..].
Qed.

Lemma flush_requests_within_batch_size_witness :
  Forall (within 2)
    (posts (trace (final_state
                     (BrazeClient.flush (env := accepting) 5 true true
                        (sample_client 2 false true None
                                       (sample_users 5) (sample_events 3),
                         quiet_world))).2)).
Proof.
  destruct (flush_requests_within_batch_size (env := accepting) 5 true true
              (sample_client 2 false true None (sample_users 5) (sample_events 3))
              quiet_world) as (ps & lg & Hps & _ & Hwithin & _).
  - cbn. lia.
  - rewrite Hps. exact Hwithin.
Defined.



(** ** The log file and the pauses *)

(** The log files opened and closed in a trace, the writes to a log,
    and the pauses, oldest first. *)
Definition log_opens (tr : list effect) : nat :=
  length (omap (fun ev => match ev with EvLogOpen _ => Some tt | _ => None end) tr).

Definition log_closes (tr : list effect) : nat :=
  length (omap (fun ev => match ev with EvLogClose => Some tt | _ => None end) tr).



Section LogAndPause.
Context `{env : Collaborators}.
Import BrazeConfig BrazeClient.
Implicit Types (self : BrazeClient.t) (w : World).











End LogAndPause.



(** ** The entries of [requests] *)

Section RequestsEntries.
Context `{env : Collaborators}.
Import BrazeConfig BrazeClient.
Implicit Types (self : BrazeClient.t) (w : World).

(** The entry a pass leaves under the time of the flush. *)
Definition entry_for (flush_time : datetime) (url : string) (body : pydict)
    (entry : pydict) : Prop :=
  PyDict.get "request" entry = Some (VDict body)
  ∧ PyDict.get "url" entry = Some (VStr url)
  ∧ PyDict.get "timestamp" entry = Some (VDatetime flush_time).

Lemma entry_for_set flush_time url body entry key v :
  key ∈ ["ok"; "status"; "response"] →
  entry_for flush_time url body entry →
  entry_for flush_time url body (PyDict.set key v entry).
Proof.
  intros Hkey (Hrequest & Hurl & Htime). unfold entry_for. rewrite !get_set.
  rewrite !elem_of_cons, elem_of_nil in Hkey.
  destruct Hkey as [->|[->|[->|[]]]]; repeat case_decide; by split_and!.
Qed.

Lemma flush_iteration_requests flush_time fu fe self w w_log :
  log_request self (request_of fu fe self) w = inr w_log →
  let o := flush_iteration flush_time fu fe (self, w) in
  (∀ key, key ≠ flush_time →
          requests (final_state o).1 !! key = requests self !! key)
  ∧ ∃ entry,
      requests (final_state o).1 !! flush_time = Some entry
      ∧ entry_for flush_time (track_url self) (request_of fu fe self) entry.
Proof.
  unfold flush_iteration, request_of.
  destruct (build_request fu fe self) as [[body ubs] ebs]. cbn [fst snd].
  intros ->.
  assert (Hrecorded : entry_for flush_time (track_url self) body
            [("request", VDict body); ("url", VStr (track_url self));
             ("timestamp", VDatetime flush_time)]) by done.
  assert (Hprune : ∀ st, requests (prune ubs ebs st).1 = requests st.1).
  { intros [self' w']. unfold prune. by destruct (0 <? ubs), (0 <? ebs). }
  unfold record_request, dispatch. cbn [config log with_requests].
  destruct (send (config self)) eqn:Hsend.
  - change (track_url (with_requests _ self)) with (track_url self).
    destruct (http_post _ _ _) as [e|ok status resp]; cbn [final_state fst requests with_requests].
    { split; [intros key Hkey; by rewrite lookup_insert_ne|].
      eexists. by rewrite lookup_insert_eq. }
    assert (Hsent : ∀ m : gmap datetime pydict,
              (∀ key, key ≠ flush_time →
                 alter (PyDict.set "response" resp) flush_time
                   (alter (PyDict.set "status" (VInt status)) flush_time
                      (alter (PyDict.set "ok" (VBool ok)) flush_time
                         (<[flush_time := [("request", VDict body);
                                           ("url", VStr (track_url self));
                                           ("timestamp", VDatetime flush_time)]]> m)))
                 !! key = m !! key)
              ∧ ∃ entry,
                  alter (PyDict.set "response" resp) flush_time
                    (alter (PyDict.set "status" (VInt status)) flush_time
                       (alter (PyDict.set "ok" (VBool ok)) flush_time
                          (<[flush_time := [("request", VDict body);
                                            ("url", VStr (track_url self));
                                            ("timestamp", VDatetime flush_time)]]> m)))
                  !! flush_time = Some entry
                  ∧ entry_for flush_time (track_url self) body entry).
    { intros m. split.
      - intros key Hkey. by rewrite !lookup_alter_ne, lookup_insert_ne.
      - eexists. rewrite !lookup_alter_eq, lookup_insert_eq. split; [done|].
        repeat apply entry_for_set; try done; rewrite !elem_of_cons; tauto. }
    destruct (resp_get resp "error") as [e|err]; cbn [final_state fst requests with_requests];
      [apply Hsent|].
    match goal with |- context [if ?c then _ else _] => destruct c end;
      cbn [final_state fst requests with_requests];
      rewrite ?Hprune; apply Hsent.
  - cbn [final_state]. rewrite Hprune. cbn [fst requests with_requests].
    split; [intros key Hkey; by rewrite lookup_insert_ne|].
    eexists. by rewrite lookup_insert_eq.
Qed.
End RequestsEntries.

(** X9. What a flush does to [requests]. Entries filed under any other
    time than the time of this flush are neither changed nor removed,
    whatever the outcome. Under the time of the flush there is, with
    [send] on, an entry for the last request posted (its body, the track
    URL and the time); entries of earlier requests of the same flush are
    not kept. *)
Theorem flush_requests_entries `{env : Collaborators}
    (fuel : nat) (flush_users flush_events : bool)
    (self : BrazeClient.t) (w : World) :
  let o := BrazeClient.flush fuel flush_users flush_events (self, w) in
  let flush_time := utcnow (clock w) in
  (∀ key, key ≠ flush_time →
     BrazeClient.requests (final_state o).1 !! key = BrazeClient.requests self !! key)
  ∧ ∃ ps,
      posts (trace (final_state o).2) = posts (trace w) ++ ps
      ∧ (BrazeConfig.send (BrazeClient.config self) = true →
         ∀ body, last ps = Some body →
           ∃ entry,
             BrazeClient.requests (final_state o).1 !! flush_time = Some entry
             ∧ entry_for flush_time (BrazeClient.track_url self) body entry).
Proof.
  cbn zeta. rewrite flush_unfold. set (w0 := flush_start w).
  change (utcnow (clock w)) with (flush_time_at w).
  set (I := fun (self' : BrazeClient.t) (w' : World) =>
    BrazeClient.config self' = BrazeClient.config self
    ∧ (∀ key, key ≠ flush_time_at w →
         BrazeClient.requests self' !! key = BrazeClient.requests self !! key)
    ∧ ∃ ps,
        posts (trace w') = posts (trace w) ++ ps
        ∧ (BrazeConfig.send (BrazeClient.config self) = true →
           ∀ body, last ps = Some body →
             ∃ entry,
               BrazeClient.requests self' !! flush_time_at w = Some entry
               ∧ entry_for (flush_time_at w) (BrazeClient.track_url self) body entry)).
  pose proof (flush_loop_invariant I (fun _ => I) fuel (flush_time_at w)
                flush_users flush_events self w0) as Hloop.
  assert (Hinit : I self w0).
  { split_and!; [done..|]. exists []. split.
    - subst w0. cbn. rewrite posts_app. cbn. by rewrite app_nil_r.
    - by intros _ body [=]. }
  assert (Hstep : ∀ self1 w1, I self1 w1 →
            BrazeClient.pending flush_users flush_events self1 = true →
            match BrazeClient.flush_iteration (flush_time_at w) flush_users
                    flush_events (self1, w1) with
            | Return _ st' => I st'.1 st'.2
            | Raise e st' => I st'.1 st'.2
            | OutOfFuel _ => True
            end).
  { intros self1 w1 (Hcfg & Hkeys & ps & Hps & Hlast) _.
    destruct (BrazeClient.log_request self1 (request_of flush_users flush_events self1)
                w1) as [[e w_log]|w_log] eqn:Hlogged.
    { rewrite (flush_iteration_log_failed _ _ _ _ _ _ _ Hlogged).
      apply log_request_inl in Hlogged as [Hext _]. apply extends_posts in Hext.
      cbn [fst snd]. split_and!; [done..|]. exists ps.
      split; [by rewrite Hext, app_nil_r|done]. }
    pose proof (flush_iteration_logged (flush_time_at w) flush_users flush_events
                  self1 w1 w_log Hlogged) as (Hcfg' & _ & _ & Hext & Hout).
    pose proof (flush_iteration_requests (flush_time_at w) flush_users flush_events
                  self1 w1 w_log Hlogged) as (Hkeys' & entry & Hentry & Hfor).
    cbn zeta in *. apply extends_posts in Hext.
    assert (Hurl : BrazeClient.track_url self1 = BrazeClient.track_url self)
      by (unfold BrazeClient.track_url; by rewrite Hcfg).
    rewrite Hcfg, Hurl in *.
    assert (HI : I (final_state (BrazeClient.flush_iteration (flush_time_at w)
                                   flush_users flush_events (self1, w1))).1
                   (final_state (BrazeClient.flush_iteration (flush_time_at w)
                                   flush_users flush_events (self1, w1))).2).
    { split_and!; [done | |].
      - intros key Hkey. by rewrite Hkeys', Hkeys.
      - eexists. split; [by rewrite Hext, Hps, <- app_assoc|].
        intros Hsend body. rewrite Hsend, last_snoc. intros [= <-]. by exists entry. }
    by destruct (BrazeClient.flush_iteration (flush_time_at w) flush_users
                   flush_events (self1, w1)) as [[] st1|e1 st1|]. }
  specialize (Hloop Hinit Hstep).
  destruct (BrazeClient.flush_loop fuel (flush_time_at w) flush_users flush_events
              (self, w0)) as [[] [self' w']|e [self' w']|[self' w']];
    cbn [final_state fst snd] in *.
  - destruct Hloop as [(_ & Hkeys & ps & Hps & Hlast) _]. split; [done|].
    exists ps. split; [|done]. cbn. rewrite posts_app, Hps. cbn.
    by rewrite app_nil_r.
  - destruct Hloop as (_ & Hkeys & ps & Hps & Hlast). split; [done|]. by exists ps.
  - destruct Hloop as [(_ & Hkeys & ps & Hps & Hlast) _]. split; [done|].
    by exists ps.
Qed.

(** ** How many requests a flush makes *)

(** The number of batches of at most [B] that [n] records make, and the
    number of requests the queues of a client still need: each request
    takes a batch of users and a batch of events. *)
Definition batches (B : Z) (n : nat) : nat := ((n + Z.to_nat B - 1) / Z.to_nat B)%nat.

Definition requests_needed (flush_users flush_events : bool)
    (self : BrazeClient.t) : nat :=
  let B := BrazeConfig.batch_size (BrazeClient.config self) in
  max (if flush_users then batches B (length (BrazeClient.user_queue self)) else 0)
      (if flush_events then batches B (length (BrazeClient.event_queue self)) else 0).

Section RequestCount.
Context `{env : Collaborators}.
Import BrazeConfig BrazeClient.
Implicit Types (self : BrazeClient.t) (w : World).

Lemma batches_0 B : 0 < B → batches B 0 = 0%nat.
Proof. intros HB. unfold batches. apply Nat.div_small. lia. Qed.

Lemma batches_pos B n : 0 < B → (0 < n)%nat → (0 < batches B n)%nat.
Proof.
  intros HB Hn. unfold batches. apply Nat.div_str_pos. lia.
Qed.

Lemma batches_drop B n :
  0 < B → batches B (n - Z.to_nat B) = pred (batches B n).
Proof.
  intros HB. unfold batches. set (b := Z.to_nat B). assert (0 < b)%nat by lia.
  destruct (decide (n ≤ b)%nat) as [Hle|Hgt].
  - replace (n - b)%nat with 0%nat by lia.
    rewrite (Nat.div_small (0 + b - 1)) by lia.
    destruct (decide (n = 0)%nat) as [->|Hn].
    + by rewrite (Nat.div_small (0 + b - 1)) by lia.
    + replace (n + b - 1)%nat with ((n - 1) + 1 * b)%nat by lia.
      rewrite Nat.div_add by lia. rewrite (Nat.div_small (n - 1)) by lia. done.
  - replace (n + b - 1)%nat with ((n - b + b - 1) + 1 * b)%nat by lia.
    rewrite Nat.div_add by lia. lia.
Qed.

Lemma requests_needed_0 fu fe self :
  0 < batch_size (config self) →
  pending fu fe self = false → requests_needed fu fe self = 0%nat.
Proof.
  intros HB. unfold pending, requests_needed. intros Hdone.
  apply orb_false_elim in Hdone as [Hu He].
  destruct fu, fe, (user_queue self), (event_queue self); cbn in *;
    rewrite ?batches_0 by done; done.
Qed.

(** A pass that returns brings the number of requests still needed down
    by one. *)
Lemma requests_needed_pass fu fe self self' :
  0 < batch_size (config self) →
  pending fu fe self = true →
  config self' = config self →
  user_queue self' = after_batch fu (batch_size (config self)) (user_queue self) →
  event_queue self' = after_batch fe (batch_size (config self)) (event_queue self) →
  requests_needed fu fe self = S (requests_needed fu fe self').
Proof.
  intros HB Hpending Hcfg Huq Heq. unfold requests_needed.
  rewrite Hcfg, Huq, Heq, !after_batch_pos by done.
  assert (Hsome : (0 < max (if fu then batches (batch_size (config self))
                                       (length (user_queue self)) else 0)
                        (if fe then batches (batch_size (config self))
                                       (length (event_queue self)) else 0))%nat).
  { unfold pending in Hpending. apply orb_prop in Hpending as [Hp|Hp];
      apply andb_prop in Hp as [-> Hq].
    - destruct (user_queue self) as [|user q]; [done|].
      pose proof (batches_pos (batch_size (config self)) (length (user :: q)) HB).
      cbn [length] in *. lia.
    - destruct (event_queue self) as [|event q]; [done|].
      pose proof (batches_pos (batch_size (config self)) (length (event :: q)) HB).
      cbn [length] in *. lia. }
  destruct fu, fe; rewrite ?length_drop, ?batches_drop by done; lia.
Qed.
End RequestCount.

(** X10. With [send] on and a positive batch size, the requests of a
    flush that took their records off the queues ([sent]: all it
    posted, but for at most one that failed in its dispatch) and the
    requests its queues still need add up, at every outcome, to what the
    queues needed at the start: the larger of the numbers of batches of
    the two queues flushed. A flush that returns has therefore posted
    exactly max(ceil(U/B), ceil(E/B)) requests for U users and E
    events. *)
Theorem flush_number_of_requests `{env : Collaborators}
    (fuel : nat) (flush_users flush_events : bool)
    (self : BrazeClient.t) (w : World) :
  BrazeConfig.send (BrazeClient.config self) = true →
  0 < BrazeConfig.batch_size (BrazeClient.config self) →
  let o := BrazeClient.flush fuel flush_users flush_events (self, w) in
  ∃ sent failed,
    posts (trace (final_state o).2) = posts (trace w) ++ sent ++ failed
    ∧ (length sent
       + requests_needed flush_users flush_events (final_state o).1)%nat
      = requests_needed flush_users flush_events self
    ∧ (length failed ≤ 1)%nat
    ∧ (if o is Raise _ _ then True else failed = [])
    ∧ (returns o = true →
       length sent = requests_needed flush_users flush_events self).
Proof.
  intros Hsend HB o.
  set (P := fun (self1 : BrazeClient.t) (ps : list pydict) =>
    BrazeClient.config self1 = BrazeClient.config self
    ∧ (length ps + requests_needed flush_users flush_events self1)%nat
      = requests_needed flush_users flush_events self).
  set (R := fun (self1 : BrazeClient.t) (ps : list pydict) =>
    ∃ sent failed, ps = sent ++ failed ∧ P self1 sent ∧ (length failed ≤ 1)%nat).
  destruct (flush_pass_rule (fun self1 ps _ => P self1 ps)
              (fun self1 ps _ => R self1 ps)
              fuel flush_users flush_events self w)
    as (ps & lg & Hps & _ & Hout).
  { by split. }
  { intros self1 ps lg (Hcfg & Hcount) Hpending. cbn zeta.
    rewrite Hcfg, Hsend. split; [|split].
    - intros self2 Hcfg2 _ Huq Heq. split; [congruence|].
      pose proof (requests_needed_pass flush_users flush_events self1 self2) as Hpass.
      rewrite Hcfg in Hpass. specialize (Hpass HB Hpending Hcfg2 Huq Heq).
      rewrite Hpass in Hcount. rewrite length_app. cbn [length]. lia.
    - intros self2 Hcfg2 _ Huq Heq _.
      exists ps, [request_of flush_users flush_events self1].
      split; [done|]. split; [|done]. split; [congruence|].
      replace (requests_needed flush_users flush_events self2)
        with (requests_needed flush_users flush_events self1); [done|].
      unfold requests_needed. by rewrite Hcfg2, Hcfg, Huq, Heq.
    - intros _. exists ps, []. rewrite app_nil_r. split; [done|].
      split; [by split|]. cbn. lia. }
  subst o.
  destruct (BrazeClient.flush fuel flush_users flush_events (self, w))
    as [[] [self' w']|e [self' w']|[self' w']];
    cbn [final_state fst snd returns] in *.
  - destruct Hout as [(Hcfg & Hcount) Hdone]. exists ps, [].
    rewrite app_nil_r. split_and!; [done | done | cbn; lia | done |].
    intros _. rewrite requests_needed_0 in Hcount by (rewrite ?Hcfg; done). lia.
  - destruct Hout as (sent & failed & -> & (_ & Hcount) & Hfailed).
    exists sent, failed. by split_and!.
  - destruct Hout as [(_ & Hcount) _]. exists ps, [].
    rewrite app_nil_r. split_and!; [done | done | cbn; lia | done | done].
Qed.

Lemma flush_number_of_requests_witness :
  length (posts (trace (final_state
                          (BrazeClient.flush (env := accepting) 4 true true
                             (sample_client 75 false true None
                                            (sample_users 200) (sample_events 80),
                              quiet_world))).2)) = 3%nat.
Proof.
  destruct (flush_number_of_requests (env := accepting) 4 true true
              (sample_client 75 false true None (sample_users 200) (sample_events 80))
              quiet_world) as (sent & failed & Hps & _ & _ & Hnone & Hcount).
  - reflexivity.
  - cbn. lia.
  - assert (Hreturns : returns (BrazeClient.flush (env := accepting) 4 true true
                          (sample_client 75 false true None
                                         (sample_users 200) (sample_events 80),
                           quiet_world)) = true) by by vm_compute.
    destruct (BrazeClient.flush (env := accepting) 4 true true
                (sample_client 75 false true None
                               (sample_users 200) (sample_events 80),
                 quiet_world)); [|done..].
    rewrite Hps, Hnone, app_nil_r, length_app, Hcount by done. by vm_compute.
Defined.

(** ** Records: serialization in full, [set], construction *)

Section RecordFacts.

Lemma set_fresh {K V} `{EqDecision K} (k : K) (v : V) (d : list (K * V)) :
  k ∉ PyDict.keys d → PyDict.set k v d = d ++ [(k, v)].
Proof.
  unfold PyDict.keys. induction d as [|[k0 v0] d IH]; [done|].
  rewrite fmap_cons. intros [Hne Hrest]%not_elem_of_cons.
  cbn [fst] in Hne. cbn [PyDict.set app]. case_decide; [congruence|].
  by rewrite IH.
Qed.

(** Storing bindings with new, distinct keys appends them in order. *)
Lemma store_all_fresh {K V} `{EqDecision K} (f : V → V) (l init : list (K * V)) :
  NoDup (PyDict.keys l) →
  (∀ k, k ∈ PyDict.keys l → k ∉ PyDict.keys init) →
  PyDict.store_all f l init = init ++ (prod_map id f <$> l).
Proof.
  unfold PyDict.store_all, PyDict.keys. revert init.
  induction l as [|[k0 v0] l IH]; intros init Hnd Hfresh;
    [by rewrite app_nil_r|].
  rewrite fmap_cons in Hnd. apply NoDup_cons in Hnd as [Hk0 Hnd].
  cbn [fold_left fst snd]. rewrite set_fresh.
  - rewrite IH; [by rewrite <- app_assoc | done |].
    intros k Hk. rewrite fmap_app, elem_of_app. intros [Hin|Hin].
    + apply (Hfresh k); [rewrite fmap_cons; by right | done].
    + cbn in Hin. apply list_elem_of_singleton in Hin as ->. done.
  - apply Hfresh. rewrite fmap_cons. by left.
Qed.

Lemma update_store_all {K V} `{EqDecision K} (d other : list (K * V)) :
  PyDict.update d other = PyDict.store_all id other d.
Proof. reflexivity. Qed.

Lemma prod_map_id_id {A B} (l : list (A * B)) : prod_map id id <$> l = l.
Proof. induction l as [|[a b] l IH]; [done|]. cbn. by rewrite IH. Qed.

Lemma update_fresh {K V} `{EqDecision K} (d other : list (K * V)) :
  NoDup (PyDict.keys other) →
  (∀ k, k ∈ PyDict.keys other → k ∉ PyDict.keys d) →
  PyDict.update d other = d ++ other.
Proof.
  intros Hnd Hfresh. rewrite update_store_all, store_all_fresh by done.
  by rewrite prod_map_id_id.
Qed.

Lemma get_update {K V} `{EqDecision K} (d other : list (K * V)) (k : K) :
  NoDup (PyDict.keys other) →
  PyDict.get k (PyDict.update d other)
  = match PyDict.get k other with
    | Some v => Some v
    | None => PyDict.get k d
    end.
Proof. intros Hnd. rewrite update_store_all. by apply get_store_all. Qed.

Lemma keys_update_prefix {K V} `{EqDecision K} (d other : list (K * V)) :
  ∃ rest, PyDict.keys (PyDict.update d other) = PyDict.keys d ++ rest.
Proof. rewrite update_store_all. apply keys_store_all_prefix. Qed.

Lemma NoDup_keys_update {K V} `{EqDecision K} (d other : list (K * V)) :
  NoDup (PyDict.keys d) → NoDup (PyDict.keys (PyDict.update d other)).
Proof. rewrite update_store_all. apply NoDup_keys_store_all. Qed.
End RecordFacts.

(** X11. A user whose trait names are distinct and none of them an
    identity key serializes to the two identity fields followed by its
    traits in their own order, each value rendered ([None] kept, a
    datetime as its ISO string, anything else as it is): no trait is
    dropped, added or moved. *)
Theorem user_as_dict_in_full (user : BrazeUser.t) :
  NoDup (PyDict.keys (BrazeUser.traits user)) →
  (∀ k, k ∈ PyDict.keys (BrazeUser.traits user) →
        k ∉ ["external_campaign_id"; "update_existing_only"]) →
  BrazeUser.as_dict user
  = [("external_campaign_id", BrazeUser.external_id user);
     ("update_existing_only", VBool (BrazeUser.update_existing_only user))]
    ++ (prod_map id dictionarise <$> BrazeUser.traits user).
Proof.
  intros Hnd Hfresh. unfold BrazeUser.as_dict. by apply store_all_fresh.
Qed.

Lemma user_as_dict_in_full_witness :
  BrazeUser.as_dict (BrazeUser.Make (VStr "u1") true sample_traits VNone)
  = [("external_campaign_id", VStr "u1");
     ("update_existing_only", VBool true);
     ("email", VStr "a@b.c");
     ("signed_up", VStr "2019-03-07T14:05:09.000250");
     ("nickname", VNone);
     ("visits", VInt 12)].
Proof.
  apply (user_as_dict_in_full (BrazeUser.Make (VStr "u1") true sample_traits VNone)).
  - compute_done.
  - intros k Hk. cbn in Hk. rewrite !elem_of_cons, elem_of_nil in Hk.
    rewrite !elem_of_cons, elem_of_nil.
    destruct Hk as [->|[->|[->|[->|[]]]]]; intros [?|[?|[]]]; discriminate.
Defined.

(** X12. An event serializes to its identity, its name and its time (a
    datetime as its ISO string, any other value as it is), in this
    order; an event without properties has no "properties" key at all,
    and an event with properties (of distinct names) has them, rendered
    and in their own order, as a nested mapping under that key. *)
Theorem event_as_dict_in_full (event : BrazeEvent.t) :
  NoDup (PyDict.keys (BrazeEvent.properties event)) →
  BrazeEvent.as_dict event
  = [("external_campaign_id", BrazeEvent.external_id event);
     ("name", BrazeEvent.name event);
     ("time", match BrazeEvent.timestamp event with
              | VDatetime d => VStr (isoformat d)
              | other => other
              end)]
    ++ (if nonempty (BrazeEvent.properties event)
        then [("properties",
               VDict (prod_map id dictionarise <$> BrazeEvent.properties event))]
        else []).
Proof.
  intros Hnd. unfold BrazeEvent.as_dict.
  destruct (nonempty (BrazeEvent.properties event)); [|done].
  rewrite store_all_fresh; [| done | by intros k _ ?%elem_of_nil].
  cbn [app PyDict.set]. by repeat (case_decide; [done|]).
Qed.

Lemma event_as_dict_in_full_witness :
  BrazeEvent.as_dict (sample_event 7)
  = [("external_campaign_id", VStr "user-007");
     ("name", VStr "login");
     ("time", VStr "2024-05-17T09:00:07")].
Proof.
  apply (event_as_dict_in_full (sample_event 7)). compute_done.
Defined.

(** X13. [set] merges: a trait named in the call takes the new value,
    every other trait keeps its value, the traits that were there keep
    their places, and the record is otherwise the same (so calls chain).
    What is serialized afterwards is the merged value. *)
Theorem user_set_merges (user : BrazeUser.t) (kwargs : pydict) (k : string) :
  NoDup (PyDict.keys kwargs) →
  NoDup (PyDict.keys (BrazeUser.traits user)) →
  let user' := BrazeUser.set user kwargs in
  BrazeUser.external_id user' = BrazeUser.external_id user
  ∧ BrazeUser.update_existing_only user' = BrazeUser.update_existing_only user
  ∧ BrazeUser.braze user' = BrazeUser.braze user
  ∧ NoDup (PyDict.keys (BrazeUser.traits user'))
  ∧ (∃ rest, PyDict.keys (BrazeUser.traits user')
             = PyDict.keys (BrazeUser.traits user) ++ rest)
  ∧ PyDict.get k (BrazeUser.traits user')
    = match PyDict.get k kwargs with
      | Some v => Some v
      | None => PyDict.get k (BrazeUser.traits user)
      end
  ∧ PyDict.get k (BrazeUser.as_dict user')
    = match PyDict.get k kwargs with
      | Some v => Some (dictionarise v)
      | None => PyDict.get k (BrazeUser.as_dict user)
      end.
Proof.
  intros Hkw Htraits user'.
  assert (Hnd : NoDup (PyDict.keys (BrazeUser.traits user')))
    by by apply NoDup_keys_update.
  assert (Hget : PyDict.get k (BrazeUser.traits user')
                 = match PyDict.get k kwargs with
                   | Some v => Some v
                   | None => PyDict.get k (BrazeUser.traits user)
                   end) by by apply get_update.
  split_and!; try done.
  - apply keys_update_prefix.
  - rewrite !user_as_dict_store_all, !get_store_all by done. rewrite Hget.
    by destruct (PyDict.get k kwargs).
Qed.

Lemma user_set_merges_witness :
  PyDict.get "visits"
    (BrazeUser.as_dict
       (BrazeUser.set (BrazeUser.Make (VStr "u1") false sample_traits VNone)
                      [("visits", VInt 13); ("plan", VStr "pro")]))
  = Some (VInt 13).
Proof.
  pose proof (user_set_merges (BrazeUser.Make (VStr "u1") false sample_traits VNone)
                [("visits", VInt 13); ("plan", VStr "pro")] "visits") as H.
  cbn zeta in H. destruct H as (_ & _ & _ & _ & _ & _ & Hserialized).
  - compute_done.
  - compute_done.
  - exact Hserialized.
Defined.

(** ** Building records *)

(** [def __init__(self, external_id=None, update_existing_only=False,
    braze=None, **kwargs)] of [BrazeUser]; the object under construction
    is the first positional argument. *)
Definition BrazeUser_signature : PyCall.signature :=
  PyCall.Sig [("self", None);
              ("external_id", Some VNone);
              ("update_existing_only", Some (VBool false));
              ("braze", Some VNone)]
             false true.

(** Calling the class [BrazeUser] with positional arguments [pos] and
    keywords [kw]. The record keeps [update_existing_only] as a boolean,
    as the source annotates it; a call that binds it to a value of
    another type has no record here ([None]). *)
Definition BrazeUser_new (pos : list pyval) (kw : pydict)
    : pyexc + option BrazeUser.t :=
  match PyCall.bind BrazeUser_signature (VObject :: pos) kw with
  | inl e => inl e
  | inr b =>
      match PyCall.arg "update_existing_only" b with
      | VBool update_existing_only =>
          inr (Some (BrazeUser.__init__ (PyCall.arg "external_id" b)
                       update_existing_only (PyCall.arg "braze" b)
                       (PyCall.star_kwargs b)))
      | _ => inr None
      end
  end.

(** [def user(self, external_id, *args, **kwargs)] of [BrazeClient];
    the client is the first positional argument. *)
Definition BrazeClient_user_signature : PyCall.signature :=
  PyCall.Sig [("self", None); ("external_id", None)] true true.

(** The call [client.user(...)] on the client at address [self]: the
    body is [BrazeUser(external_campaign_id=external_id, *args,
    braze=self, **kwargs)]. *)
Definition BrazeClient_user (self : nat) (pos : list pyval) (kw : pydict)
    : pyexc + option BrazeUser.t :=
  match PyCall.bind BrazeClient_user_signature (VClient self :: pos) kw with
  | inl e => inl e
  | inr b =>
      match PyCall.keywords
              [("external_campaign_id", PyCall.arg "external_id" b);
               ("braze", VClient self)]
              (PyCall.star_kwargs b) with
      | inl e => inl e
      | inr kw => BrazeUser_new (PyCall.star_args b) kw
      end
  end.

Section Construction.
Context `{env : Collaborators}.

Lemma keywords_fresh explicit kw :
  NoDup (PyDict.keys kw) →
  (∀ k, k ∈ PyDict.keys kw → k ∉ PyDict.keys explicit) →
  PyCall.keywords explicit kw = inr (explicit ++ kw).
Proof.
  revert explicit. induction kw as [|[k v] kw IH]; intros explicit Hnd Hfresh.
  - by rewrite app_nil_r.
  - unfold PyDict.keys in Hnd. rewrite fmap_cons in Hnd.
    apply NoDup_cons in Hnd as [Hk Hnd]. cbn [PyCall.keywords].
    rewrite get_None by (apply Hfresh; unfold PyDict.keys; rewrite fmap_cons; by left).
    rewrite IH; [by rewrite <- app_assoc | done |].
    intros k' Hk'. unfold PyDict.keys. rewrite fmap_app, elem_of_app.
    intros [Hin|Hin].
    + apply (Hfresh k'); [unfold PyDict.keys; rewrite fmap_cons; by right | done].
    + cbn in Hin. apply list_elem_of_singleton in Hin as ->. done.
Qed.

(** The call [BrazeEvent(external_id, name, **kw)]. *)
Lemma BrazeEvent_new_plain {S} (external_id name : pyval) (kw : pydict)
    (s : S * World) :
  NoDup (PyDict.keys kw) →
  (∀ k, k ∈ PyDict.keys kw →
        k ∉ ["self"; "external_id"; "name"; "timestamp"; "braze"]) →
  BrazeEvent.new [external_id; name] kw s
  = Return (BrazeEvent.Make external_id name (VDatetime (utcnow (clock s.2))) kw VNone)
           (s.1, tick s.2).
Proof.
  intros Hnd Hkeys. unfold BrazeEvent.new, PyCall.bind.
  cbn [PyCall.bind_positional BrazeEvent.signature PyCall.params nonempty andb].
  rewrite bind_keywords_extra by done.
  rewrite update_fresh; [|done|by intros k _ ?%elem_of_nil].
  set (defaults := PyCall.fill_defaults _ _). vm_compute in defaults. subst defaults.
  cbn [app PyCall.star_kwargs]. unfold BrazeEvent.__init__.
  set (a := PyCall.arg "timestamp" _). vm_compute in a. subst a.
  set (a := PyCall.arg "external_id" _). vm_compute in a. subst a.
  set (a := PyCall.arg "name" _). vm_compute in a. subst a.
  set (a := PyCall.arg "braze" _). vm_compute in a. subst a.
  cbn [is_none]. rewrite update_fresh; [done|done|by intros k _ ?%elem_of_nil].
Qed.
End Construction.

(** X14. An event built as [BrazeEvent(external_id, name, **properties)]
    with no timestamp, where no property is named like a parameter of
    the constructor ([self] included), takes the time of its
    construction (one reading of the clock), keeps the keywords as its
    properties and has no batcher; serialized, its "time" is the ISO
    string of that moment, whenever it is flushed. *)
Theorem event_constructed_without_timestamp `{env : Collaborators}
    (external_id name : pyval) (kw : pydict) (s : heap * World) :
  NoDup (PyDict.keys kw) →
  (∀ k, k ∈ PyDict.keys kw →
        k ∉ ["self"; "external_id"; "name"; "timestamp"; "braze"]) →
  let now := utcnow (clock s.2) in
  let event := BrazeEvent.Make external_id name (VDatetime now) kw VNone in
  BrazeEvent.new [external_id; name] kw s = Return event (s.1, tick s.2)
  ∧ BrazeEvent.as_dict event
    = [("external_campaign_id", external_id); ("name", name);
       ("time", VStr (isoformat now))]
      ++ (if nonempty kw
          then [("properties", VDict (prod_map id dictionarise <$> kw))]
          else []).
Proof.
  intros Hnd Hkeys now event. split.
  - by apply BrazeEvent_new_plain.
  - by apply (event_as_dict_in_full event).
Qed.

Lemma event_constructed_without_timestamp_witness :
  BrazeEvent.new (env := accepting) [VStr "user-007"; VStr "purchase"]
                 [("amount", VInt 3)] ((∅ : heap), MkWorld 4 [])
  = Return (BrazeEvent.Make (VStr "user-007") (VStr "purchase")
                            (VDatetime (sample_clock 4)) [("amount", VInt 3)] VNone)
           (∅, MkWorld 5 []).
Proof.
  apply (event_constructed_without_timestamp (env := accepting)
           (VStr "user-007") (VStr "purchase") [("amount", VInt 3)]
           ((∅ : heap), MkWorld 4 [])).
  - compute_done.
  - intros k Hk. cbn in Hk. apply list_elem_of_singleton in Hk as ->.
    rewrite !elem_of_cons, elem_of_nil. intros [?|[?|[?|[?|[?|[]]]]]]; discriminate.
Defined.

(** X15. The helper [client.user(external_id, **traits)], called with
    traits none of which is named like a parameter of the helper or of
    the constructor ([self] included) or "external_campaign_id", builds
    a user that refers back to the client, but passes the identity under
    the name "external_campaign_id": the user's own [external_id] stays
    [None] and the identity becomes its first trait. Serialization then
    writes that trait over the empty identity field, so the mapping sent
    does carry the identity, followed by the other traits in order. *)
Theorem client_user_helper (self : nat) (external_id : pyval) (kw : pydict) :
  NoDup (PyDict.keys kw) →
  (∀ k, k ∈ PyDict.keys kw →
        k ∉ ["self"; "external_id"; "update_existing_only"; "braze";
             "external_campaign_id"]) →
  let user := BrazeUser.Make VNone false
                (("external_campaign_id", external_id) :: kw) (VClient self) in
  BrazeClient_user self [external_id] kw = inr (Some user)
  ∧ BrazeUser.as_dict user
    = [("external_campaign_id", dictionarise external_id);
       ("update_existing_only", VBool false)]
      ++ (prod_map id dictionarise <$> kw).
Proof.
  intros Hnd Hkeys user.
  assert (Hkeys' : ∀ k, k ∈ PyDict.keys kw → k ≠ "self" ∧ k ≠ "external_id"
            ∧ k ≠ "update_existing_only" ∧ k ≠ "braze"
            ∧ k ≠ "external_campaign_id").
  { intros k Hk. specialize (Hkeys k Hk).
    rewrite !elem_of_cons, elem_of_nil in Hkeys. split_and!; intros ->; tauto. }
  split.
  - unfold BrazeClient_user, PyCall.bind.
    cbn [PyCall.bind_positional BrazeClient_user_signature PyCall.params
         nonempty andb].
    rewrite bind_keywords_extra;
      [| done | intros k Hk; cbn; rewrite !elem_of_cons, elem_of_nil;
                destruct (Hkeys' k Hk) as (?&?&?&?&?); intuition congruence].
    rewrite update_fresh; [|done|by intros k _ ?%elem_of_nil].
    set (defaults := PyCall.fill_defaults _ _). vm_compute in defaults. subst defaults.
    cbn [app PyCall.star_kwargs PyCall.star_args].
    set (a := PyCall.arg "external_id" _). vm_compute in a. subst a.
    rewrite keywords_fresh;
      [| done | intros k Hk; cbn; rewrite !elem_of_cons, elem_of_nil;
                destruct (Hkeys' k Hk) as (?&?&?&?&?); intuition congruence].
    unfold BrazeUser_new, PyCall.bind.
    cbn [PyCall.bind_positional BrazeUser_signature PyCall.params nonempty andb app].
    rewrite bind_keywords_other by (done || compute_done).
    rewrite bind_keywords_param by (done || compute_done).
    rewrite bind_keywords_extra;
      [| done | intros k Hk; cbn; rewrite !elem_of_cons, elem_of_nil;
                destruct (Hkeys' k Hk) as (?&?&?&?&?); intuition congruence].
    set (defaults := PyCall.fill_defaults _ _). vm_compute in defaults. subst defaults.
    cbn [PyCall.star_kwargs].
    set (a := PyCall.arg "update_existing_only" _). vm_compute in a. subst a.
    set (a := PyCall.arg "external_id" _). vm_compute in a. subst a.
    set (a := PyCall.arg "braze" _). vm_compute in a. subst a.
    unfold BrazeUser.__init__. do 3 f_equal.
    assert (Hinner : PyDict.keys (PyDict.set "external_campaign_id" external_id [])
                     = ["external_campaign_id"]) by done.
    rewrite (update_fresh (PyDict.set "external_campaign_id" external_id []) kw);
      [| done | intros k Hk; rewrite Hinner, elem_of_cons, elem_of_nil;
                destruct (Hkeys' k Hk) as (?&?&?&?&?); tauto].
    rewrite update_fresh; [done | |by intros k _ ?%elem_of_nil].
    cbn. apply NoDup_cons. split; [|done]. intros Hin.
    destruct (Hkeys' _ Hin) as (?&?&?&?&?). done.
  - subst user. unfold BrazeUser.as_dict, PyDict.store_all. cbn [BrazeUser.traits
      BrazeUser.external_id BrazeUser.update_existing_only fold_left fst snd].
    cbn [PyDict.set]. case_decide; [|done].
    apply (store_all_fresh dictionarise kw); [done|].
    intros k Hk. cbn. rewrite !elem_of_cons, elem_of_nil.
    destruct (Hkeys' k Hk) as (?&?&?&?&?). intros [?|[?|[]]]; congruence.
Qed.

Lemma client_user_helper_witness :
  BrazeClient_user 0 [VStr "user-007"] [("plan", VStr "pro")]
  = inr (Some (BrazeUser.Make VNone false
                 [("external_campaign_id", VStr "user-007"); ("plan", VStr "pro")]
                 (VClient 0))).
Proof.
  apply (client_user_helper 0 (VStr "user-007") [("plan", VStr "pro")]).
  - compute_done.
  - intros k Hk. cbn in Hk. apply list_elem_of_singleton in Hk as ->.
    rewrite !elem_of_cons, elem_of_nil. intros [?|[?|[?|[?|[?|[]]]]]]; discriminate.
Defined.

(** A keyword named [self] collides with the object the call is made
    on: [BrazeEvent('u', 'login', self=1)], [BrazeUser('u', self=1)],
    [client.user('u', self=1)] and [client.event('u', 'login', self=1)]
    all raise [TypeError]. *)
Example keyword_self_is_rejected :
  BrazeEvent.new (env := accepting) [VStr "u"; VStr "login"] [("self", VInt 1)]
                 ((∅ : heap), quiet_world)
  = Raise (TypeError (MultipleValues "self")) (∅, quiet_world)
  ∧ BrazeUser_new [VStr "u"] [("self", VInt 1)]
    = inl (TypeError (MultipleValues "self"))
  ∧ BrazeClient_user 0 [VStr "u"] [("self", VInt 1)]
    = inl (TypeError (MultipleValues "self"))
  ∧ BrazeClient.event (env := accepting) 0 [VStr "u"; VStr "login"]
                      [("self", VInt 1)] ((∅ : heap), quiet_world)
    = Raise (TypeError (MultipleValues "self")) (∅, quiet_world).
Proof. by split_and!. Qed.

(** ** Records that enqueue themselves *)

(** A record of either class: what it is as an argument of
    [BrazeClient.enqueue], the batcher stored on it, and its own
    [enqueue] method. *)
Definition record_obj (rec : BrazeUser.t + BrazeEvent.t) : pyobj :=
  match rec with inl user => OUser user | inr event => OEvent event end.

Definition record_braze (rec : BrazeUser.t + BrazeEvent.t) : pyval :=
  match rec with
  | inl user => BrazeUser.braze user
  | inr event => BrazeEvent.braze event
  end.

Definition record_enqueue `{env : Collaborators} (fuel : nat)
    (rec : BrazeUser.t + BrazeEvent.t) (braze : pyval) (s : heap * World)
    : outcome returned (heap * World) :=
  match rec with
  | inl user => BrazeUser_enqueue fuel user braze s
  | inr event => BrazeEvent_enqueue fuel event braze s
  end.

Section RecordEnqueueFacts.
Context `{env : Collaborators}.

Lemma call_enqueue_client fuel r obj (σ : heap) w client :
  σ !! r = Some client →
  let o := call_enqueue fuel (VClient r) obj (σ, w) in
  let o' := BrazeClient.enqueue fuel obj (client, w) in
  (final_state o).1 = <[r := (final_state o').1]> σ
  ∧ (final_state o).2 = (final_state o').2
  ∧ match o' with
    | Return _ _ => o = Return RNone (final_state o)
    | Raise e _ => o = Raise e (final_state o)
    | OutOfFuel _ => o = OutOfFuel (final_state o)
    end.
Proof.
  intros Hr. cbn zeta. unfold call_enqueue. cbn [fst snd]. rewrite Hr.
  by destruct (BrazeClient.enqueue fuel obj (client, w))
    as [[] [c w']|e [c w']|[c w']].
Qed.

Lemma record_enqueue_call fuel rec braze r s :
  braze = VClient r ∨ (braze = VNone ∧ record_braze rec = VClient r) →
  record_enqueue fuel rec braze s = call_enqueue fuel (VClient r) (record_obj rec) s.
Proof.
  unfold record_enqueue, BrazeUser_enqueue, BrazeEvent_enqueue.
  intros [->|[-> Hstored]]; destruct rec as [user|event];
    cbn [record_braze record_obj is_none andb negb] in *;
    rewrite ?Hstored; done.
Qed.
End RecordEnqueueFacts.

(** X16. A record's own [enqueue] reaches exactly one client: the one
    passed in the call or, when none is passed, the one stored on the
    record. It does there what [BrazeClient.enqueue] does with the
    record, ends the way that call ends (returning [None], raising its
    exception, or still running), leaves every other client as it was
    and creates none. *)
Theorem record_enqueue_reaches_one_client `{env : Collaborators}
    (fuel : nat) (rec : BrazeUser.t + BrazeEvent.t) (braze : pyval)
    (σ : heap) (w : World) (r : nat) (client : BrazeClient.t) :
  braze = VClient r ∨ (braze = VNone ∧ record_braze rec = VClient r) →
  σ !! r = Some client →
  let o := record_enqueue fuel rec braze (σ, w) in
  let o' := BrazeClient.enqueue fuel (record_obj rec) (client, w) in
  (final_state o).1 = <[r := (final_state o').1]> σ
  ∧ (final_state o).2 = (final_state o').2
  ∧ (∀ r', r' ≠ r → (final_state o).1 !! r' = σ !! r')
  ∧ dom (final_state o).1 = dom σ
  ∧ match o' with
    | Return _ _ => o = Return RNone (final_state o)
    | Raise e _ => o = Raise e (final_state o)
    | OutOfFuel _ => o = OutOfFuel (final_state o)
    end.
Proof.
  intros Hbraze Hr. cbn zeta. rewrite (record_enqueue_call fuel rec braze r) by done.
  destruct (call_enqueue_client fuel r (record_obj rec) σ w client Hr)
    as (Hheap & Hworld & Hkind).
  split_and!; [done|done| | |done].
  - intros r' Hr'. rewrite Hheap. by rewrite lookup_insert_ne.
  - rewrite Hheap. apply dom_insert_lookup_L. by rewrite Hr.
Qed.

Lemma record_enqueue_reaches_one_client_witness :
  let σ : heap := {[ 0%nat := sample_client 75 false false None [] [] ]} in
  let o := record_enqueue (env := accepting) 0 (inl (sample_user 1)) (VClient 0)
             (σ, quiet_world) in
  dom (final_state o).1 = dom σ.
Proof.
  intros σ o.
  pose proof (record_enqueue_reaches_one_client (env := accepting) 0
                (inl (sample_user 1)) (VClient 0) σ quiet_world 0
                (sample_client 75 false false None [] [])) as H.
  cbn zeta in H. destruct H as (_ & _ & _ & Hdom & _).
  - by left.
  - subst σ. by rewrite lookup_singleton_eq.
  - exact Hdom.
Defined.

(** ** Keywords that name a parameter *)

Section CallBinding.
Implicit Types (d kw filled kwargs : pydict) (k : string) (sig : PyCall.signature).

Lemma bind_keywords_filled_keeps sig kw filled kwargs filled' kwargs' k v :
  PyCall.bind_keywords sig kw filled kwargs = inr (filled', kwargs') →
  PyDict.get k filled = Some v →
  PyDict.get k filled' = Some v.
Proof.
  revert filled kwargs. induction kw as [|[k0 v0] kw IH]; intros filled kwargs.
  - by intros [= <- <-].
  - cbn [PyCall.bind_keywords]. case_bool_decide.
    + destruct (PyDict.get k0 filled) eqn:Hk0; [done|]. intros Hrest Hget.
      apply (IH _ _ Hrest). by rewrite get_app, Hget.
    + destruct (PyCall.varkw sig); [|done]. apply IH.
Qed.

Lemma bind_keywords_filled sig kw filled kwargs filled' kwargs' k v :
  PyCall.bind_keywords sig kw filled kwargs = inr (filled', kwargs') →
  k ∈ (PyCall.params sig).*1 →
  PyDict.get k kw = Some v →
  PyDict.get k filled' = Some v.
Proof.
  intros Hbind Hparam. revert filled kwargs Hbind.
  induction kw as [|[k0 v0] kw IH]; intros filled kwargs; [done|].
  cbn [PyCall.bind_keywords PyDict.get]. case_decide as Hk0.
  - subst k0. rewrite bool_decide_eq_true_2 by done.
    destruct (PyDict.get k filled) eqn:Hfilled; [done|]. intros Hrest [= ->].
    apply (bind_keywords_filled_keeps _ _ _ _ _ _ _ _ Hrest).
    by rewrite get_app, Hfilled; cbn; rewrite decide_True.
  - case_bool_decide.
    + destruct (PyDict.get k0 filled); [done|]. apply IH.
    + destruct (PyCall.varkw sig); [|done]. apply IH.
Qed.

Lemma fill_defaults_get ps filled k v :
  k ∈ ps.*1 →
  PyDict.get k filled = Some v →
  PyDict.get k (PyCall.fill_defaults ps filled).2 = Some v.
Proof.
  induction ps as [|[name dflt] ps IH]; intros Hk Hget.
  - by apply elem_of_nil in Hk.
  - cbn [PyCall.fill_defaults].
    destruct (PyCall.fill_defaults ps filled) as [missing vals] eqn:Hrest.
    destruct (decide (name = k)) as [->|Hne].
    + rewrite Hget. cbn. by rewrite decide_True.
    + rewrite fmap_cons in Hk. apply elem_of_cons in Hk as [Hk|Hk]; [by subst|].
      specialize (IH Hk Hget). cbn [snd] in IH.
      destruct (PyDict.get name filled), dflt; cbn; rewrite ?decide_False by done;
        done.
Qed.

(** A keyword of a call that binds is the value of the parameter it
    names. *)
Lemma bind_arg_keyword sig pos kw b k v :
  PyCall.bind sig pos kw = inr b →
  k ∈ (PyCall.params sig).*1 →
  PyDict.get k kw = Some v →
  PyCall.arg k b = v.
Proof.
  unfold PyCall.bind. destruct (PyCall.bind_positional _ _) as [filled extra].
  destruct (nonempty extra && negb (PyCall.varargs sig)); [done|].
  destruct (PyCall.bind_keywords sig kw filled []) as [e'|[filled' kwargs]] eqn:Hkw;
    [done|].
  destruct (PyCall.fill_defaults _ _) as [[|name missing] vals] eqn:Hfill; [|done].
  intros [= <-] Hparam Hget. unfold PyCall.arg. cbn [PyCall.named].
  pose proof (fill_defaults_get (PyCall.params sig) filled' k v Hparam
                (bind_keywords_filled _ _ _ _ _ _ _ _ Hkw Hparam Hget)) as Hvals.
  rewrite Hfill in Hvals. cbn [snd] in Hvals. by rewrite Hvals.
Qed.

(** Whatever the arguments, a user the helper hands out refers back to
    the client. *)
Lemma BrazeClient_user_braze r pos kw user :
  BrazeClient_user r pos kw = inr (Some user) → BrazeUser.braze user = VClient r.
Proof.
  unfold BrazeClient_user.
  destruct (PyCall.bind BrazeClient_user_signature _ _) as [e|b]; [done|].
  destruct (PyCall.keywords _ _) as [e|kw1] eqn:Hkw1; [done|].
  apply keywords_inr in Hkw1 as [-> _]. unfold BrazeUser_new.
  destruct (PyCall.bind BrazeUser_signature _ _) as [e|b2] eqn:Hb2; [done|].
  assert (PyCall.arg "braze" b2 = VClient r) as Hbraze.
  { apply (bind_arg_keyword _ _ _ _ _ _ Hb2); [compute_done|]. done. }
  destruct (PyCall.arg "update_existing_only" b2); try done.
  intros [= <-]. by rewrite Hbraze.
Qed.
End CallBinding.

(** X17. Whatever arguments [client.user(...)] is called with, a user it
    returns refers back to that client. So the user's [enqueue()] with no
    argument lands in the client's own user queue, at the end; when that
    sets off an automatic flush, the client is left as that flush leaves
    it. *)
Theorem helper_user_refers_back `{env : Collaborators}
    (fuel : nat) (r : nat) (pos : list pyval) (kw : pydict) (user : BrazeUser.t)
    (σ : heap) (w : World) (client : BrazeClient.t) :
  BrazeClient_user r pos kw = inr (Some user) →
  σ !! r = Some client →
  let client' :=
    BrazeClient.with_user_queue (BrazeClient.user_queue client ++ [user]) client in
  BrazeUser.braze user = VClient r
  ∧ (BrazeClient.over_threshold client' = false →
     BrazeUser_enqueue fuel user VNone (σ, w) = Return RNone (<[r := client']> σ, w))
  ∧ (BrazeClient.over_threshold client' = true →
     let st := final_state (BrazeClient.flush fuel true true (client', w)) in
     final_state (BrazeUser_enqueue fuel user VNone (σ, w)) = (<[r := st.1]> σ, st.2)).
Proof.
  intros Huser Hr client'. pose proof (BrazeClient_user_braze _ _ _ _ Huser) as Hbraze.
  split; [done|].
  assert (BrazeUser_enqueue fuel user VNone (σ, w)
          = call_enqueue fuel (VClient r) (OUser user) (σ, w)) as ->.
  { apply (record_enqueue_call fuel (inl user) VNone r). by right. }
  unfold call_enqueue. cbn [fst snd]. rewrite Hr.
  unfold BrazeClient.enqueue. cbn [BrazeClient.append_record]. fold client'.
  split; intros ->; [done|]. cbn zeta.
  by destruct (BrazeClient.flush fuel true true (client', w))
    as [[] [c w']|e [c w']|[c w']].
Qed.

Lemma helper_user_refers_back_witness :
  let user := BrazeUser.Make VNone false
                [("external_campaign_id", VStr "user-007"); ("plan", VStr "pro")]
                (VClient 0) in
  let client := sample_client 75 false false None [] [] in
  BrazeUser_enqueue (env := accepting) 0 user VNone ({[ 0%nat := client ]}, quiet_world)
  = Return RNone
      (<[ 0%nat := BrazeClient.with_user_queue [user] client ]> {[ 0%nat := client ]},
       quiet_world).
Proof.
  intros user client.
  pose proof (helper_user_refers_back (env := accepting) 0 0
                [VStr "user-007"] [("plan", VStr "pro")] user
                {[ 0%nat := client ]} quiet_world client) as H.
  cbn zeta in H. destruct H as (_ & Hquiet & _).
  - reflexivity.
  - by rewrite lookup_singleton_eq.
  - apply Hquiet. reflexivity.
Defined.

(** ** A client's life: construction, then calls *)

(** The two calls a program makes on a client, and a sequence of them;
    the sequence stops at the first call that does not return. *)
Inductive call :=
  | CallEnqueue (obj : pyobj)
  | CallFlush (flush_users flush_events : bool).

Definition run_call `{env : Collaborators} (fuel : nat) (c : call)
    (st : BrazeClient.t * World) : outcome unit (BrazeClient.t * World) :=
  match c with
  | CallEnqueue obj => BrazeClient.enqueue fuel obj st
  | CallFlush flush_users flush_events =>
      BrazeClient.flush fuel flush_users flush_events st
  end.

Fixpoint run_calls `{env : Collaborators} (fuel : nat) (cs : list call)
    (st : BrazeClient.t * World) : outcome unit (BrazeClient.t * World) :=
  match cs with
  | [] => Return tt st
  | c :: cs =>
      match run_call fuel c st with
      | Return _ st => run_calls fuel cs st
      | other => other
      end
  end.

Section ClientLife.
Context `{env : Collaborators}.
Import BrazeConfig BrazeClient.
Implicit Types (self : BrazeClient.t) (w : World).

(** From [(self, w)] to [st']: same configuration, same log file, at
    most [k] sessions, no POST with [send] off, nothing logged without a
    log. *)
Definition settled self w (st' : BrazeClient.t * World) (k : nat) : Prop :=
  config st'.1 = config self
  ∧ log st'.1 = log self
  ∧ ∃ ps lg n, extends w st'.2 ps lg n
               ∧ (send (config self) = false → ps = [])
               ∧ (log self = None → lg = [])
               ∧ (n ≤ k)%nat.

Lemma settled_refl self w k : settled self w (self, w) k.
Proof.
  split_and!; [done|done|]. exists [], [], 0%nat.
  split_and!; [apply extends_refl|done|done|lia].
Qed.

Lemma settled_trans self w st' st'' k k' :
  settled self w st' k → settled st'.1 st'.2 st'' k' → settled self w st'' (k + k').
Proof.
  intros (Hc & Hl & ps & lg & n & Hext & Hps & Hlg & Hn)
         (Hc' & Hl' & ps' & lg' & n' & Hext' & Hps' & Hlg' & Hn').
  split_and!; [congruence|congruence|].
  exists (ps ++ ps'), (lg ++ lg'), (n + n')%nat. split_and!.
  - by eapply extends_trans.
  - intros Hsend. rewrite Hps by done. rewrite Hps' by congruence. done.
  - intros Hlog. rewrite Hlg by done. rewrite Hlg' by congruence. done.
  - lia.
Qed.

Lemma flush_settled fuel fu fe self w :
  settled self w (final_state (flush fuel fu fe (self, w))) 1.
Proof.
  pose proof (flush_spec fuel fu fe self w)
    as (Hc & Hl & _ & (ps & lg & Hext & Hps & Hlg) & _).
  split_and!; [done|done|]. by exists ps, lg, 1%nat.
Qed.

Lemma settled_from self self0 w st' k :
  config self0 = config self → log self0 = log self →
  settled self0 w st' k → settled self w st' k.
Proof. unfold settled. by intros -> ->. Qed.

Lemma enqueue_settled fuel obj self w :
  settled self w (final_state (enqueue fuel obj (self, w))) 1.
Proof.
  unfold enqueue. destruct obj as [user|event|v]; cbn [append_record].
  - apply (settled_from self (with_user_queue (user_queue self ++ [user]) self));
      [done|done|].
    destruct (over_threshold _); [apply flush_settled | apply settled_refl].
  - apply (settled_from self (with_event_queue (event_queue self ++ [event]) self));
      [done|done|].
    destruct (over_threshold _); [apply flush_settled | apply settled_refl].
  - apply settled_refl.
Qed.

Lemma run_calls_settled fuel cs self w :
  settled self w (final_state (run_calls fuel cs (self, w))) (length cs).
Proof.
  revert self w. induction cs as [|c cs IH]; intros self w; [apply settled_refl|].
  cbn [run_calls length].
  assert (settled self w (final_state (run_call fuel c (self, w))) 1) as Hcall.
  { destruct c; [apply enqueue_settled | apply flush_settled]. }
  destruct (run_call fuel c (self, w)) as [[] [self' w']|e st'|st'];
    cbn [final_state] in *.
  - apply (settled_trans self w (self', w') _ 1 (length cs) Hcall), IH.
  - destruct Hcall as (Hc & Hl & ps & lg & n & Hext & Hps & Hlg & Hn).
    split_and!; [done|done|]. exists ps, lg, n. split_and!; [done|done|done|lia].
  - destruct Hcall as (Hc & Hl & ps & lg & n & Hext & Hps & Hlg & Hn).
    split_and!; [done|done|]. exists ps, lg, n. split_and!; [done|done|done|lia].
Qed.
End ClientLife.

(** X18. The life of a client. The constructor switches logging off only
    when [log] is false and no [log_file] is named: a file that is named
    is used whatever [log] says, and otherwise the file is named after
    the moment of construction. Construction itself has no effect, and
    whatever calls of [enqueue] and [flush] follow, however they end, the
    client keeps the configuration and the log file it was built with;
    with [send] off not one request is posted, with logging off nothing
    is logged, and no call opens more than one session. *)
Theorem client_keeps_its_configuration `{env : Collaborators}
    (endpoint api_key : string) (batch_size : Z) (auto_flush send : bool)
    (pause : N) (log : bool) (log_file : option string) (w : World)
    (fuel : nat) (cs : list call) :
  let st0 := BrazeClient.__init__ endpoint api_key batch_size auto_flush send
               pause log log_file w in
  let st := final_state (run_calls fuel cs st0) in
  (BrazeClient.log st0.1 = None ↔ log = false ∧ log_file = None)
  ∧ (∀ f, log_file = Some f → BrazeClient.log st0.1 = Some f)
  ∧ (log = true → log_file = None →
     BrazeClient.log st0.1
     = Some ("braze_" +:+ strftime_log_name (utcnow (clock w)) +:+ ".log"))
  ∧ trace st0.2 = trace w
  ∧ BrazeClient.config st.1
    = BrazeConfig.Make endpoint api_key batch_size auto_flush send pause
                       (BrazeClient.log st0.1)
  ∧ BrazeClient.log st.1 = BrazeClient.log st0.1
  ∧ ∃ ps lg n,
      extends w st.2 ps lg n
      ∧ (send = false → ps = [])
      ∧ (log = false → log_file = None → lg = [])
      ∧ (n ≤ length cs)%nat.
Proof.
  cbn zeta.
  set (st0 := BrazeClient.__init__ _ _ _ _ _ _ _ _ _).
  assert (BrazeClient.config st0.1
          = BrazeConfig.Make endpoint api_key batch_size auto_flush send pause
                             (BrazeClient.log st0.1)
          ∧ trace st0.2 = trace w
          ∧ (BrazeClient.log st0.1 = None ↔ log = false ∧ log_file = None)
          ∧ (∀ f, log_file = Some f → BrazeClient.log st0.1 = Some f)
          ∧ (log = true → log_file = None →
             BrazeClient.log st0.1
             = Some ("braze_" +:+ strftime_log_name (utcnow (clock w)) +:+ ".log")))
    as (Hconfig & Htrace & Hoff & Hfile & Hname).
  { subst st0. unfold BrazeClient.__init__.
    destruct log, log_file as [f|]; cbn; split_and!; try done;
      try (split; [done | by intros [? ?]]); by intros ? [= ->]. }
  destruct st0 as [self w0] eqn:Hst0. cbn [fst snd] in *.
  pose proof (run_calls_settled fuel cs self w0)
    as (Hc & Hl & ps & lg & n & (evs & Hevs & Hposts & Hlogged & Hopens)
        & Hps & Hlg & Hn).
  split_and!; [done|done|done|done|by rewrite Hc|done|].
  exists ps, lg, n. split_and!; [|by rewrite Hconfig in Hps| |done].
  - exists evs. by rewrite Hevs, Htrace.
  - intros Hlog Hnofile. apply Hlg, Hoff. done.
Qed.

(** ** The HTTP session of a flush *)

(** The session events of a trace, in order. *)
Definition session_events (tr : list effect) : list effect :=
  omap (fun ev => match ev with
                  | EvSessionOpen | EvSessionClose => Some ev
                  | _ => None
                  end) tr.

Section Session.
Context `{env : Collaborators}.
Import BrazeConfig BrazeClient.
Implicit Types (self : BrazeClient.t) (w : World).

Lemma session_events_app tr1 tr2 :
  session_events (tr1 ++ tr2) = session_events tr1 ++ session_events tr2.
Proof. apply omap_app. Qed.

(** A pass neither opens nor closes a session. *)
Lemma flush_iteration_session flush_time fu fe self w :
  ∃ evs,
    trace (final_state (flush_iteration flush_time fu fe (self, w))).2 = trace w ++ evs
    ∧ session_events evs = [].
Proof.
  assert (Hlog : match log_request self (request_of fu fe self) w with
                 | inl (_, w1) | inr w1 =>
                     ∃ evs, trace w1 = trace w ++ evs ∧ session_events evs = []
                 end).
  { unfold log_request. destruct (log self) as [path|].
    - destruct (open_log (trace w) path); [by exists []; rewrite app_nil_r|].
      destruct (json_serializable _); eexists;
        (split; [cbn [emit tick trace]; by rewrite <- ?app_assoc|done]).
    - exists []. by rewrite app_nil_r. }
  destruct (log_request self (request_of fu fe self) w) as [[e w1]|w1] eqn:Hlogged.
  { by rewrite (flush_iteration_log_failed _ _ _ _ _ _ _ Hlogged). }
  destruct Hlog as (evs0 & Htr0 & Hnone0).
  assert (∃ evs, trace (final_state (flush_iteration flush_time fu fe (self, w))).2
                 = trace w1 ++ evs ∧ session_events evs = [])
    as (evs1 & Htr1 & Hnone1).
  { revert Hlogged. unfold flush_iteration, request_of.
    destruct (build_request fu fe self) as [[body ubs] ebs]. cbn [fst snd].
    intros ->. unfold record_request, dispatch, prune.
    cbn [config log with_requests].
    destruct (log self) as [path|] eqn:Hlog; destruct (send (config self)) eqn:Hsend;
      [destruct (http_post _ _ _) as [e|ok status resp];
       [|destruct (resp_get resp "error") as [e|err]; [|destruct (is_none err)]]
      | | destruct (http_post _ _ _) as [e|ok status resp];
       [|destruct (resp_get resp "error") as [e|err]; [|destruct (is_none err)]]
      | ];
      cbn [andb negb final_state fst snd returns config log with_requests];
      rewrite ?Hlog, ?Hsend;
      cbn [andb negb final_state fst snd returns config log with_requests];
      destruct (0 <? ubs); destruct (0 <? ebs);
      cbn [config log with_requests with_user_queue with_event_queue];
      rewrite ?Hlog;
      destruct (N.eqb (pause (config self)) 0); cbn [negb andb emit tick trace];
      rewrite <- ?app_assoc;
      (eexists; split; [reflexivity || (symmetry; apply app_nil_r)|]);
      done. }
  exists (evs0 ++ evs1). split; [by rewrite Htr1, Htr0, <- app_assoc|].
  by rewrite session_events_app, Hnone0, Hnone1.
Qed.

Lemma flush_loop_session fuel flush_time fu fe self w :
  ∃ evs,
    trace (final_state (flush_loop fuel flush_time fu fe (self, w))).2 = trace w ++ evs
    ∧ session_events evs = [].
Proof.
  set (I := fun (self' : BrazeClient.t) (w' : World) =>
    ∃ evs, trace w' = trace w ++ evs ∧ session_events evs = []).
  pose proof (flush_loop_invariant I (fun _ => I) fuel flush_time fu fe self w) as Hloop.
  assert (Hinit : I self w) by (exists []; by rewrite app_nil_r).
  assert (Hstep : ∀ self1 w1, I self1 w1 → pending fu fe self1 = true →
            match flush_iteration flush_time fu fe (self1, w1) with
            | Return _ st' => I st'.1 st'.2
            | Raise e st' => I st'.1 st'.2
            | OutOfFuel _ => True
            end).
  { intros self1 w1 (evs & Htr & Hnone) _.
    destruct (flush_iteration_session flush_time fu fe self1 w1) as (evs' & Htr' & Hnone').
    destruct (flush_iteration flush_time fu fe (self1, w1))
      as [[] [self2 w2]|e [self2 w2]|]; cbn [final_state fst snd] in *; [| |done];
      exists (evs ++ evs');
      by rewrite Htr', Htr, <- app_assoc, session_events_app, Hnone, Hnone'. }
  specialize (Hloop Hinit Hstep).
  destruct (flush_loop fuel flush_time fu fe (self, w))
    as [[] [self' w']|e [self' w']|[self' w']]; cbn [final_state fst snd] in *.
  - by destruct Hloop as [? _].
  - done.
  - by destruct Hloop as [? _].
Qed.
End Session.

(** X19. The HTTP session of a flush. A flush opens one session, before
    anything else, and closes it only on the way out through its end:
    when the flush raises (a transport failure, an unreadable response,
    an API error) the session it opened is never closed. *)
Theorem flush_session_discipline `{env : Collaborators}
    (fuel : nat) (flush_users flush_events : bool)
    (self : BrazeClient.t) (w : World) :
  let o := BrazeClient.flush fuel flush_users flush_events (self, w) in
  ∃ evs,
    trace (final_state o).2 = trace w ++ EvSessionOpen :: evs
    ∧ session_events evs = (if returns o then [EvSessionClose] else [])
    ∧ (returns o = true → last evs = Some EvSessionClose).
Proof.
  cbn zeta. rewrite flush_unfold.
  destruct (flush_loop_session fuel (flush_time_at w) flush_users flush_events self
              (flush_start w)) as (evs & Htr & Hnone).
  destruct (BrazeClient.flush_loop fuel (flush_time_at w) flush_users flush_events
              (self, flush_start w))
    as [[] [self' w']|e [self' w']|[self' w']]; cbn [final_state fst snd returns] in *.
  - exists (evs ++ [EvSessionClose]). split_and!.
    + cbn [emit trace]. rewrite Htr. cbn [flush_start tick emit trace].
      by rewrite <- !app_assoc.
    + by rewrite session_events_app, Hnone.
    + intros _. apply last_snoc.
  - exists evs. split_and!; [|done|done].
    rewrite Htr. cbn [flush_start tick emit trace]. by rewrite <- app_assoc.
  - exists evs. split_and!; [|done|done].
    rewrite Htr. cbn [flush_start tick emit trace]. by rewrite <- app_assoc.
Qed.

(** ** Setting the properties of an event *)

Lemma nonempty_update {K V} `{EqDecision K} (d other : list (K * V)) :
  nonempty (PyDict.update d other) = nonempty d || nonempty other.
Proof.
  assert (Hkeep : ∀ d0 other0 : list (K * V), nonempty d0 = true →
            nonempty (PyDict.update d0 other0) = true).
  { intros d0 other0 Hd0. destruct (keys_update_prefix d0 other0) as [rest Hkeys].
    destruct d0 as [|kv d0]; [done|].
    destruct (PyDict.update (kv :: d0) other0); [done|done]. }
  destruct d as [|kv d].
  - destruct other as [|[k v] other]; [done|].
    change (PyDict.update [] ((k, v) :: other)) with (PyDict.update [(k, v)] other).
    by rewrite Hkeep.
  - by rewrite Hkeep.
Qed.

(** X20. [set] on an event merges into its properties: a property named
    in the call takes the new value, every other one keeps its value and
    the ones that were there keep their places; identity, name, time and
    batcher stay (so calls chain). Serialized afterwards, the event
    carries the merged properties, and the "properties" entry is there
    as soon as the event had a property or the call names one. *)
Theorem event_set_merges (event : BrazeEvent.t) (kwargs : pydict) (k : string) :
  NoDup (PyDict.keys kwargs) →
  NoDup (PyDict.keys (BrazeEvent.properties event)) →
  let event' := BrazeEvent.set event kwargs in
  BrazeEvent.external_id event' = BrazeEvent.external_id event
  ∧ BrazeEvent.name event' = BrazeEvent.name event
  ∧ BrazeEvent.timestamp event' = BrazeEvent.timestamp event
  ∧ BrazeEvent.braze event' = BrazeEvent.braze event
  ∧ (∃ rest, PyDict.keys (BrazeEvent.properties event')
             = PyDict.keys (BrazeEvent.properties event) ++ rest)
  ∧ PyDict.get k (BrazeEvent.properties event')
    = match PyDict.get k kwargs with
      | Some v => Some v
      | None => PyDict.get k (BrazeEvent.properties event)
      end
  ∧ BrazeEvent.as_dict event'
    = [("external_campaign_id", BrazeEvent.external_id event);
       ("name", BrazeEvent.name event);
       ("time", match BrazeEvent.timestamp event with
                | VDatetime d => VStr (isoformat d)
                | other => other
                end)]
      ++ (if nonempty (BrazeEvent.properties event) || nonempty kwargs
          then [("properties",
                 VDict (prod_map id dictionarise
                        <$> PyDict.update (BrazeEvent.properties event) kwargs))]
          else []).
Proof.
  intros Hkw Hprops event'. split_and!; try done.
  - apply keys_update_prefix.
  - by apply get_update.
  - unfold BrazeEvent.as_dict. subst event'.
    cbn [BrazeEvent.set BrazeEvent.properties BrazeEvent.external_id BrazeEvent.name
         BrazeEvent.timestamp].
    rewrite nonempty_update.
    destruct (nonempty (BrazeEvent.properties event) || nonempty kwargs); [|done].
    rewrite store_all_fresh;
      [| by apply NoDup_keys_update | by intros k0 _ ?%elem_of_nil].
    cbn [app PyDict.set]. by repeat (case_decide; [done|]).
Qed.

Lemma event_set_merges_witness :
  BrazeEvent.as_dict (BrazeEvent.set (sample_event 3) [("amount", VInt 3)])
  = [("external_campaign_id", VStr "user-003"); ("name", VStr "login");
     ("time", VStr "2024-05-17T09:00:03");
     ("properties", VDict [("amount", VInt 3)])].
Proof.
  pose proof (event_set_merges (sample_event 3) [("amount", VInt 3)] "amount") as H.
  cbn zeta in H. destruct H as (_ & _ & _ & _ & _ & _ & Hserialized).
  - compute_done.
  - compute_done.
  - exact Hserialized.
Defined.

(** ** A flush whose log step fails *)

(** X21. A flush of a client with a log that finds something to do
    fails in the log step of its first pass when the file does not open
    or the first request body cannot be encoded. It then raises what
    [open] raised, or the [TypeError] of [json.dumps], before anything
    is filed in [requests] or posted: the client is exactly as it was,
    the session stays open, and in the second case the log file, opened
    and with its two header lines written, stays open as well. *)
Theorem flush_log_step_failure `{env : Collaborators}
    (fuel : nat) (flush_users flush_events : bool)
    (self : BrazeClient.t) (w : World) (path : string) :
  BrazeClient.pending flush_users flush_events self = true →
  BrazeClient.log self = Some path →
  let w0 := flush_start w in
  let o := BrazeClient.flush (S fuel) flush_users flush_events (self, w) in
  (∀ e, open_log (trace w0) path = Some e → o = Raise e (self, w0))
  ∧ (open_log (trace w0) path = None →
     json_serializable (VDict (request_of flush_users flush_events self)) = false →
     ∃ header1 header2,
       o = Raise (TypeError NotJSONSerializable)
             (self, MkWorld (S (clock w0))
                      (trace w0 ++ [EvLogOpen path; EvLogWrite (LText header1);
                                    EvLogWrite (LText header2)]))).
Proof.
  intros Hpending Hlog w0 o. subst o.
  rewrite flush_unfold, flush_loop_unfold. cbn [fst].
  rewrite Hpending. fold w0. split.
  - intros e Hopen.
    rewrite (flush_iteration_log_failed _ _ _ _ _ e w0); [done|].
    unfold BrazeClient.log_request. by rewrite Hlog, Hopen.
  - intros Hopen Hjson. eexists _, _.
    erewrite flush_iteration_log_failed; [reflexivity|].
    unfold BrazeClient.log_request. by rewrite Hlog, Hopen, Hjson.
Qed.

Lemma flush_log_step_failure_witness :
  BrazeClient.flush (env := unwritable) 1 true true
    (sample_client 75 false true (Some "logs/braze.log") (sample_users 1) [],
     quiet_world)
  = Raise (OSError "No such file or directory")
      (sample_client 75 false true (Some "logs/braze.log") (sample_users 1) [],
       MkWorld 1 [EvSessionOpen]).
Proof.
  apply (flush_log_step_failure (env := unwritable) 0 true true
           (sample_client 75 false true (Some "logs/braze.log") (sample_users 1) [])
           quiet_world "logs/braze.log").
  - reflexivity.
  - reflexivity.
  - reflexivity.
Defined.

(** The same flush of a user that [json.dumps] cannot encode, the file
    opening: queue and [requests] are as they were, nothing was posted,
    and the log was opened and not closed. *)
Example flush_body_not_encodable :
  let client := sample_client 75 false true (Some "braze.log") [dated_user] [] in
  let o := BrazeClient.flush (env := accepting) 1 true true (client, quiet_world) in
  (∃ w', o = Raise (TypeError NotJSONSerializable) (client, w'))
  ∧ posts (trace (final_state o).2) = []
  ∧ log_opens (trace (final_state o).2) = 1%nat
  ∧ log_closes (trace (final_state o).2) = 0%nat.
Proof. split; [by eexists|by vm_compute]. Qed.
